(** * saleor/payment/gateway.py: the payment orchestration layer

    A shallow embedding of [saleor/payment/gateway.py] and the properties
    of its six mutating operations ([process_payment], [authorize],
    [capture], [refund], [void], [confirm]) and its read operations.

    Python exceptions are values of [Exn]; a call either returns or raises
    ([Result]).  The module works on one [Payment] object per call
    ([payment] and [txn.payment] are the same Python object), so the store
    [World] holds that object, the [Transaction] rows that belong to it and
    the calls made to the collaborators; the [payment] argument of the
    source functions is the reference to the object in the store. *)

From Stdlib Require Import String List Bool ZArith QArith Lia.
Import ListNotations.
Open Scope string_scope.
Open Scope list_scope.

(** ** Exceptions and results *)

(** The exception classes that occur in the module.  All of them derive
    from Python's [Exception]; [InvalidOperation] is
    [decimal.InvalidOperation], and [OtherException] stands for any other
    subclass of [Exception] that a collaborator raises. *)
Inductive Exn : Type :=
| PaymentError (msg : string)
| GatewayError (msg : string)
| ImproperlyConfigured (msg : string)
| AttributeError (msg : string)
| UnboundLocalError (name : string)
| ValueError (msg : string)
| InvalidOperation
| OtherException (cls msg : string).

Inductive Result (A : Type) : Type :=
| Ok (a : A)
| Raise (e : Exn).
Arguments Ok {A} a.
Arguments Raise {A} e.

(** [except GatewayError] *)
Definition is_GatewayError (e : Exn) : bool :=
  match e with GatewayError _ => true | _ => false end.

(** [except AttributeError]; [UnboundLocalError] derives from [NameError],
    not from [AttributeError]. *)
Definition is_AttributeError (e : Exn) : bool :=
  match e with AttributeError _ => true | _ => false end.

(** ** Data model *)

(** [TransactionKind] *)
Inductive TransactionKind : Type := AUTH | CAPTURE | REFUND | VOID | CONFIRM.

Definition kind_eqb (a b : TransactionKind) : bool :=
  match a, b with
  | AUTH, AUTH | CAPTURE, CAPTURE | REFUND, REFUND
  | VOID, VOID | CONFIRM, CONFIRM => true
  | _, _ => false
  end.

(** A member of the [Gateway] enumeration of [saleor/core/payments.py]. *)
Inductive Gateway : Type := GatewayMember (value : string).

(** Card metadata is an opaque payload for this module. *)
Definition CardInfo : Type := string.

(** The values of Python's [Decimal]: the finite numbers (as rationals),
    the two infinities, and NaN (quiet or signaling). *)
Inductive Decimal : Type :=
| Number (q : Q)
| Infinity (negative : bool)
| NaN.

(** [x <= y] where both are numbers or infinities; no answer when one of
    them is a NaN. *)
Definition decimal_leb (x y : Decimal) : option bool :=
  match x, y with
  | NaN, _ | _, NaN => None
  | Infinity true, _ => Some true
  | _, Infinity false => Some true
  | Infinity false, _ => Some false
  | _, Infinity true => Some false
  | Number a, Number b => Some (Qle_bool a b)
  end.

(** Python's [x <= y] and [x > y] on [Decimal]: an ordering comparison
    that involves a NaN raises [decimal.InvalidOperation]. *)
Definition Decimal_le (x y : Decimal) : Result bool :=
  match decimal_leb x y with
  | Some b => Ok b
  | None => Raise InvalidOperation
  end.

Definition Decimal_gt (x y : Decimal) : Result bool :=
  match decimal_leb x y with
  | Some b => Ok (negb b)
  | None => Raise InvalidOperation
  end.

(** The order of the numbers and infinities, as propositions; a NaN is not
    related to anything. *)
Definition decimal_le (x y : Decimal) : Prop :=
  match x, y with
  | NaN, _ | _, NaN => False
  | Infinity true, _ => True
  | _, Infinity false => True
  | Infinity false, _ => False
  | _, Infinity true => False
  | Number a, Number b => (a <= b)%Q
  end.

Definition decimal_lt (x y : Decimal) : Prop :=
  match x, y with
  | NaN, _ | _, NaN => False
  | _, Infinity true => False
  | Infinity true, _ => True
  | Infinity false, _ => False
  | Number _, Infinity false => True
  | Number a, Number b => (a < b)%Q
  end.

Record Payment : Type := mkPayment {
  payment_id : Z;
  gateway : option string;
  is_active : bool;
  captured_amount : Decimal;
  total : Decimal;
  card : option CardInfo
}.

(** The normalized outcome a backend returns. *)
Record GatewayResponse : Type := mkGatewayResponse {
  gr_is_success : bool;
  gr_transaction_id : string;
  gr_card_info : option CardInfo;
  gr_error : option string
}.

(** Modelled from the spec: the [PaymentInformation] snapshot that
    [create_payment_information] of [saleor/payment/utils.py] (not in the
    sources at hand) builds from a Payment: "amount, token, store-source
    flag, card data".  The snapshot keeps the payment it was taken from and
    the three arguments of the call. *)
Record PaymentData : Type := mkPaymentData {
  pd_payment : Payment;
  pd_token : option string;
  pd_amount : option Decimal;
  pd_store_source : bool
}.

(** Modelled from the spec: the [Transaction] record of
    [saleor/payment/models.py] (not in the sources at hand): "owning payment
    reference, kind, token, is_success flag, error message (optional),
    gateway response payload". *)
Record Transaction : Type := mkTransaction {
  txn_payment : Z;
  txn_kind : TransactionKind;
  txn_token : option string;
  txn_is_success : bool;
  txn_error : option string;
  txn_gateway_response : option GatewayResponse
}.

(** The methods of the plugin manager that reach a gateway backend. *)
Inductive PluginMethod : Type :=
| process_payment_method
| authorize_payment_method
| capture_payment_method
| refund_payment_method
| void_payment_method
| confirm_payment_method
| create_payment_form_method
| list_payment_sources_method
| get_client_token_method
| list_payment_gateways_method.

(** What the module does to its collaborators, in call order. *)
Inductive Event : Type :=
| EvGateway (ident : option string)
| EvBackend (method : PluginMethod) (g : Gateway) (data : PaymentData)
| EvQuery (method : PluginMethod)
| EvLog (msg : string)
| EvUpdateCard (response : GatewayResponse)
| EvPostprocess (txn : Transaction).

(** The store: the payment object, the rows of [payment.transactions] in
    the order the queryset yields them (for an unordered queryset [first()]
    orders by primary key, which is the order of creation), and the calls
    made so far. *)
Record World : Type := mkWorld {
  payment : Payment;
  transactions : list Transaction;
  trace : list Event
}.

(** ** The collaborators

    Everything [gateway.py] imports and calls but does not define: the
    [Gateway] enumeration, the methods of [Payment], the helpers of
    [saleor/payment/utils.py] and the plugin manager. *)
Record Collaborators : Type := mkCollaborators {
  (** [Gateway(ident)] *)
  Gateway_lookup : option string -> Result Gateway;
  (** [payment.get_charge_amount()] and [payment.can_refund()] *)
  get_charge_amount : Payment -> Decimal;
  can_refund : Payment -> bool;
  (** [clean_authorize(payment)], [clean_capture(payment, amount)] *)
  clean_authorize : Payment -> Result unit;
  clean_capture : Payment -> Decimal -> Result unit;
  (** [validate_gateway_response(response)] *)
  validate_gateway_response : GatewayResponse -> Result unit;
  (** [update_card_details(payment, response)] and
      [gateway_postprocess(txn, payment)] mutate the payment *)
  update_card_details : Payment -> GatewayResponse -> Payment;
  gateway_postprocess : Transaction -> Payment -> Payment;
  (** the plugin manager *)
  pm_process_payment : Gateway -> PaymentData -> Result GatewayResponse;
  pm_authorize_payment : Gateway -> PaymentData -> Result GatewayResponse;
  pm_capture_payment : Gateway -> PaymentData -> Result GatewayResponse;
  pm_refund_payment : Gateway -> PaymentData -> Result GatewayResponse;
  pm_void_payment : Gateway -> PaymentData -> Result GatewayResponse;
  pm_confirm_payment : Gateway -> PaymentData -> Result GatewayResponse;
  pm_create_payment_form : Gateway -> string -> PaymentData -> Result string;
  pm_list_payment_sources : Gateway -> string -> Result (list string);
  pm_get_client_token : Gateway -> PaymentData -> Result string;
  pm_list_payment_gateways : Result (list Gateway)
}.

(** ** The monad of the module: state and exceptions *)

Definition M (A : Type) : Type := World -> Result A * World.

Definition ret {A : Type} (a : A) : M A := fun w => (Ok a, w).

Definition raise {A : Type} (e : Exn) : M A := fun w => (Raise e, w).

Definition bind {A B : Type} (m : M A) (k : A -> M B) : M B :=
  fun w =>
    match m w with
    | (Ok a, w') => k a w'
    | (Raise e, w') => (Raise e, w')
    end.

Notation "x <- m ;; k" := (bind m (fun x => k))
  (at level 61, m at next level, right associativity).
Notation "' pat <- m ;; k" := (bind m (fun x => match x with pat => k end))
  (at level 61, pat pattern, m at next level, right associativity).
Notation "m ;;; k" := (bind m (fun _ => k))
  (at level 61, right associativity).

(** [try: body except Exception as e: handler(e)] *)
Definition try_except {A : Type} (body : M A) (handler : Exn -> M A) : M A :=
  fun w =>
    match body w with
    | (Ok a, w') => (Ok a, w')
    | (Raise e, w') => handler e w'
    end.

Definition lift {A : Type} (r : Result A) : M A := fun w => (r, w).

Definition get_payment : M Payment := fun w => (Ok (payment w), w).

Definition get_transactions : M (list Transaction) :=
  fun w => (Ok (transactions w), w).

Definition emit (e : Event) : M unit :=
  fun w => (Ok tt, mkWorld (payment w) (transactions w) (trace w ++ [e])).

Definition set_payment (p : Payment) : M unit :=
  fun w => (Ok tt, mkWorld p (transactions w) (trace w)).

(** [logger.exception(msg)] *)
Definition logger_exception (msg : string) : M unit := emit (EvLog msg).

(** ** Observations on a trace *)

Definition backend_calls (t : list Event) : list Event :=
  filter (fun e => match e with EvBackend _ _ _ => true | _ => false end) t.

Definition gateway_lookups (t : list Event) : list Event :=
  filter (fun e => match e with EvGateway _ => true | _ => false end) t.

Fixpoint postprocess_calls (t : list Event) : list Transaction :=
  match t with
  | [] => []
  | EvPostprocess txn :: t' => txn :: postprocess_calls t'
  | _ :: t' => postprocess_calls t'
  end.

(** ** gateway.py *)

Definition ERROR_MSG : string := "Oops! Something went wrong.".
Definition GENERIC_TRANSACTION_ERROR : string := "Transaction was unsuccessful".

(** Python's [x or default] on an optional string: [None] and the empty
    string are both falsy. *)
Definition py_or (x : option string) (default : string) : string :=
  match x with
  | None => default
  | Some EmptyString => default
  | Some s => s
  end.

Section Gateway.

Variable E : Collaborators.

(** Modelled from the spec: [create_payment_information] of
    [saleor/payment/utils.py] (not in the sources at hand) takes the
    request-scoped snapshot of the payment. *)
Definition create_payment_information (payment_token : option string)
    (amount : option Decimal) (store_source : bool) : M PaymentData :=
  payment <- get_payment ;;
  ret (mkPaymentData payment payment_token amount store_source).

(** Modelled from the spec: [create_transaction] of
    [saleor/payment/utils.py] (not in the sources at hand).  "Builds and
    persists a Transaction from: the payment, the kind for this operation,
    the PaymentInformation used, the (response, error) pair.  Sets
    is_success = (error is None and response.success)."  The record is
    appended to the payment's transactions. *)
Definition create_transaction (kind : TransactionKind)
    (payment_information : PaymentData) (error_msg : option string)
    (gateway_response : option GatewayResponse) : M Transaction :=
  fun w =>
    let txn :=
      mkTransaction
        (payment_id (payment w))
        kind
        (option_map gr_transaction_id gateway_response)
        (match error_msg, gateway_response with
         | None, Some r => gr_is_success r
         | _, _ => false
         end)
        (match error_msg, gateway_response with
         | Some e, _ => Some e
         | None, Some r => gr_error r
         | None, None => None
         end)
        gateway_response in
    (Ok txn, mkWorld (payment w) (transactions w ++ [txn]) (trace w)).

(** [gateway_postprocess(txn, txn.payment)] *)
Definition call_gateway_postprocess (txn : Transaction) : M unit :=
  payment <- get_payment ;;
  emit (EvPostprocess txn) ;;;
  set_payment (gateway_postprocess E txn payment).

(** [update_card_details(payment, response)] *)
Definition call_update_card_details (response : GatewayResponse) : M unit :=
  payment <- get_payment ;;
  emit (EvUpdateCard response) ;;;
  set_payment (update_card_details E payment response).

(** A method of the plugin manager, called on a gateway. *)
Definition plugin_call (method : PluginMethod)
    (f : Gateway -> PaymentData -> Result GatewayResponse)
    (g : Gateway) (data : PaymentData) : M GatewayResponse :=
  emit (EvBackend method g data) ;;;
  lift (f g data).

(** *** The decorators *)

Definition raise_payment_error (fn : M Transaction) : M Transaction :=
  result <- fn ;;
  if negb (txn_is_success result)
  then raise (PaymentError (py_or (txn_error result) GENERIC_TRANSACTION_ERROR))
  else ret result.

Definition payment_postprocess (fn : M Transaction) : M Transaction :=
  txn <- fn ;;
  call_gateway_postprocess txn ;;;
  ret txn.

Definition require_active_payment {A : Type} (fn : M A) : M A :=
  payment <- get_payment ;;
  if negb (is_active payment)
  then raise (PaymentError "This payment is no longer active.")
  else fn.

(** *** The private helpers *)

(** In the handler the f-string reads the local [gateway], which the failed
    assignment never bound: building the message raises
    [UnboundLocalError] before [ImproperlyConfigured] is constructed. *)
Definition _get_gateway : M Gateway :=
  payment <- get_payment ;;
  emit (EvGateway (gateway payment)) ;;;
  try_except
    (lift (Gateway_lookup E (gateway payment)))
    (fun e =>
       if is_AttributeError e
       then raise (UnboundLocalError "gateway")
       else raise e).

Definition _fetch_gateway_response
    (fn : Gateway -> PaymentData -> M GatewayResponse)
    (g : Gateway) (data : PaymentData)
    : M (option GatewayResponse * option string) :=
  try_except
    (response <- fn g data ;;
     lift (validate_gateway_response E response) ;;;
     ret (Some response, None))
    (fun e =>
       if is_GatewayError e
       then logger_exception "Gateway reponse validation failed!" ;;;
            ret (None, Some ERROR_MSG)
       else logger_exception "Error encountered while executing payment gateway." ;;;
            ret (None, Some ERROR_MSG)).

(** [payment.transactions.filter(kind=kind, is_success=True)] *)
Definition successful_of_kind (kind : TransactionKind)
    (txns : list Transaction) : list Transaction :=
  filter (fun t => kind_eqb (txn_kind t) kind && txn_is_success t) txns.

(** The message is not an f-string: the braces are part of the text. *)
Definition _get_past_transaction_token (kind : TransactionKind)
    : M (option string) :=
  txns <- get_transactions ;;
  match hd_error (successful_of_kind kind txns) with
  | None => raise (PaymentError "Cannot find successful {kind.value} transaction")
  | Some txn => ret (txn_token txn)
  end.

Definition _validate_refund_amound (amount : Decimal) : M unit :=
  payment <- get_payment ;;
  nonpositive <- lift (Decimal_le amount (Number 0)) ;;
  if nonpositive
  then raise (PaymentError "Amount should be a positive number.")
  else
    exceeds <- lift (Decimal_gt amount (captured_amount payment)) ;;
    if exceeds
    then raise (PaymentError "Cannot refund more than captured")
    else ret tt.

(** *** The six operations, before decoration *)

Definition process_payment_undecorated (token : string) (store_source : bool)
    : M Transaction :=
  g <- _get_gateway ;;
  payment_data <- create_payment_information (Some token) None store_source ;;
  '(response, error) <-
    _fetch_gateway_response
      (plugin_call process_payment_method (pm_process_payment E)) g payment_data ;;
  create_transaction CAPTURE payment_data error response.

Definition authorize_undecorated (token : string) (store_source : bool)
    : M Transaction :=
  payment <- get_payment ;;
  lift (clean_authorize E payment) ;;;
  g <- _get_gateway ;;
  payment_data <- create_payment_information (Some token) None store_source ;;
  '(response, error) <-
    _fetch_gateway_response
      (plugin_call authorize_payment_method (pm_authorize_payment E)) g payment_data ;;
  create_transaction AUTH payment_data error response.

(** [Decimal(amount)] leaves a [Decimal] as it is.  After a failed gateway
    call [response] is [None], and [response.card_info] raises
    [AttributeError]. *)
Definition capture_undecorated (amount : option Decimal) (store_source : bool)
    : M Transaction :=
  payment <- get_payment ;;
  let amount :=
    match amount with
    | None => get_charge_amount E payment
    | Some a => a
    end in
  lift (clean_capture E payment amount) ;;;
  g <- _get_gateway ;;
  token <- _get_past_transaction_token AUTH ;;
  payment_data <- create_payment_information token (Some amount) store_source ;;
  '(response, error) <-
    _fetch_gateway_response
      (plugin_call capture_payment_method (pm_capture_payment E)) g payment_data ;;
  match response with
  | None => raise (AttributeError "'NoneType' object has no attribute 'card_info'")
  | Some r =>
      (match gr_card_info r with
       | Some _ => call_update_card_details r
       | None => ret tt
       end) ;;;
      create_transaction CAPTURE payment_data error response
  end.

Definition refund_undecorated (amount : option Decimal) : M Transaction :=
  payment <- get_payment ;;
  let amount :=
    match amount with
    | None => captured_amount payment
    | Some a => a
    end in
  _validate_refund_amound amount ;;;
  (if negb (can_refund E payment)
   then raise (PaymentError "This payment cannot be refunded.")
   else ret tt) ;;;
  g <- _get_gateway ;;
  token <- _get_past_transaction_token CAPTURE ;;
  payment_data <- create_payment_information token (Some amount) false ;;
  '(response, error) <-
    _fetch_gateway_response
      (plugin_call refund_payment_method (pm_refund_payment E)) g payment_data ;;
  create_transaction REFUND payment_data error response.

Definition void_undecorated : M Transaction :=
  g <- _get_gateway ;;
  token <- _get_past_transaction_token AUTH ;;
  payment_data <- create_payment_information token None false ;;
  '(response, error) <-
    _fetch_gateway_response
      (plugin_call void_payment_method (pm_void_payment E)) g payment_data ;;
  create_transaction VOID payment_data error response.

Definition confirm_undecorated : M Transaction :=
  g <- _get_gateway ;;
  token <- _get_past_transaction_token AUTH ;;
  payment_data <- create_payment_information token None false ;;
  '(response, error) <-
    _fetch_gateway_response
      (plugin_call confirm_payment_method (pm_confirm_payment E)) g payment_data ;;
  create_transaction CONFIRM payment_data error response.

(** *** The public functions, decorated as in the source *)

Definition process_payment (token : string) (store_source : bool)
    : M Transaction :=
  payment_postprocess
    (raise_payment_error
       (require_active_payment (process_payment_undecorated token store_source))).

Definition authorize (token : string) (store_source : bool) : M Transaction :=
  payment_postprocess
    (raise_payment_error
       (require_active_payment (authorize_undecorated token store_source))).

Definition capture (amount : option Decimal) (store_source : bool)
    : M Transaction :=
  payment_postprocess
    (raise_payment_error
       (require_active_payment (capture_undecorated amount store_source))).

Definition refund (amount : option Decimal) : M Transaction :=
  payment_postprocess
    (raise_payment_error (require_active_payment (refund_undecorated amount))).

Definition void : M Transaction :=
  payment_postprocess
    (raise_payment_error (require_active_payment void_undecorated)).

Definition confirm : M Transaction :=
  payment_postprocess
    (raise_payment_error (require_active_payment confirm_undecorated)).

Definition create_payment_form (data : string) : M string :=
  require_active_payment
    (payment_data <- create_payment_information None None false ;;
     g <- _get_gateway ;;
     emit (EvQuery create_payment_form_method) ;;;
     lift (pm_create_payment_form E g data payment_data)).

Definition list_payment_sources (g : Gateway) (customer_id : string)
    : M (list string) :=
  emit (EvQuery list_payment_sources_method) ;;;
  lift (pm_list_payment_sources E g customer_id).

Definition get_client_token : M string :=
  payment_data <- create_payment_information None None false ;;
  g <- _get_gateway ;;
  emit (EvQuery get_client_token_method) ;;;
  lift (pm_get_client_token E g payment_data).

Definition list_gateways : M (list Gateway) :=
  emit (EvQuery list_payment_gateways_method) ;;;
  lift (pm_list_payment_gateways E).

(** *** The six mutating calls as data *)

Inductive Call : Type :=
| CallProcess (token : string) (store_source : bool)
| CallAuthorize (token : string) (store_source : bool)
| CallCapture (amount : option Decimal) (store_source : bool)
| CallRefund (amount : option Decimal)
| CallVoid
| CallConfirm.

Definition undecorated (c : Call) : M Transaction :=
  match c with
  | CallProcess token store_source => process_payment_undecorated token store_source
  | CallAuthorize token store_source => authorize_undecorated token store_source
  | CallCapture amount store_source => capture_undecorated amount store_source
  | CallRefund amount => refund_undecorated amount
  | CallVoid => void_undecorated
  | CallConfirm => confirm_undecorated
  end.

Definition run (c : Call) : M Transaction :=
  match c with
  | CallProcess token store_source => process_payment token store_source
  | CallAuthorize token store_source => authorize token store_source
  | CallCapture amount store_source => capture amount store_source
  | CallRefund amount => refund amount
  | CallVoid => void
  | CallConfirm => confirm
  end.

End Gateway.

Arguments run E c w : simpl never.
Arguments _get_gateway E w : simpl never.
Arguments _fetch_gateway_response E fn g data w : simpl never.
Arguments _get_past_transaction_token kind w : simpl never.
Arguments _validate_refund_amound amount w : simpl never.

(** ** Concrete collaborators

    A gateway registry with the single member "dummy", a backend given by
    the caller, and hooks that record card data. *)

(** [Gateway(ident)] for a registry whose only member is "dummy";
    [on_unknown] is what the lookup of any other identifier raises. *)
Definition dummy_lookup (on_unknown : Exn) (ident : option string)
    : Result Gateway :=
  match ident with
  | Some name =>
      if String.eqb name "dummy" then Ok (GatewayMember "dummy")
      else Raise on_unknown
  | None => Raise on_unknown
  end.

Definition dummy (on_unknown : Exn)
    (backend : PluginMethod -> Gateway -> PaymentData -> Result GatewayResponse)
    : Collaborators :=
  mkCollaborators
    (dummy_lookup on_unknown)
    (fun p =>
       match total p, captured_amount p with
       | Number t, Number c => Number (t - c)
       | _, _ => NaN
       end)
    (fun p => is_active p)
    (fun _ => Ok tt)
    (fun _ amount =>
       match decimal_leb amount (Number 0) with
       | Some true => Raise (PaymentError "Amount should be a positive number.")
       | Some false => Ok tt
       | None => Raise InvalidOperation
       end)
    (fun r =>
       if String.eqb (gr_transaction_id r) EmptyString
       then Raise (GatewayError "Gateway needs to return a transaction id")
       else Ok tt)
    (fun p r =>
       mkPayment (payment_id p) (gateway p) (is_active p) (captured_amount p)
                 (total p) (gr_card_info r))
    (fun _ p => p)
    (backend process_payment_method)
    (backend authorize_payment_method)
    (backend capture_payment_method)
    (backend refund_payment_method)
    (backend void_payment_method)
    (backend confirm_payment_method)
    (fun _ data _ => Ok data)
    (fun _ _ => Ok [])
    (fun _ _ => Ok "client-token")
    (Ok [GatewayMember "dummy"]).

(** A backend that accepts every call and answers with the token it was
    given as transaction id. *)
Definition accepting_backend (_ : PluginMethod) (_ : Gateway)
    (data : PaymentData) : Result GatewayResponse :=
  Ok (mkGatewayResponse true
        (match pd_token data with Some t => t | None => "txn" end)
        None None).

(** A backend that declines every call with an error detail. *)
Definition declining_backend (_ : PluginMethod) (_ : Gateway)
    (_ : PaymentData) : Result GatewayResponse :=
  Ok (mkGatewayResponse false "declined-1" None (Some "Card declined")).

(** A backend whose every call raises. *)
Definition raising_backend (_ : PluginMethod) (_ : Gateway)
    (_ : PaymentData) : Result GatewayResponse :=
  Raise (OtherException "ConnectionError" "connection reset").

(** A backend that returns a response without a transaction id, which
    [validate_gateway_response] of [dummy] rejects. *)
Definition malformed_backend (_ : PluginMethod) (_ : Gateway)
    (_ : PaymentData) : Result GatewayResponse :=
  Ok (mkGatewayResponse true EmptyString None None).

(** What the [Gateway] enumeration raises on a value that is not a member. *)
Definition unknown_gateway : Exn :=
  ValueError "'paypal' is not a valid Gateway".

Definition E_accepting : Collaborators := dummy unknown_gateway accepting_backend.
Definition E_declining : Collaborators := dummy unknown_gateway declining_backend.
Definition E_raising : Collaborators := dummy unknown_gateway raising_backend.
Definition E_malformed : Collaborators := dummy unknown_gateway malformed_backend.

(** Sample payments: active with nothing captured, inactive, and active
    with the full amount captured. *)
Definition active_payment : Payment :=
  mkPayment 1 (Some "dummy") true (Number 0) (Number 100) None.

Definition inactive_payment : Payment :=
  mkPayment 1 (Some "dummy") false (Number 40) (Number 100) None.

Definition captured_payment : Payment :=
  mkPayment 1 (Some "dummy") true (Number 100) (Number 100) None.

(** The successful AUTH and CAPTURE transactions that [accepting_backend]
    leaves behind. *)
Definition auth_txn (token : string) : Transaction :=
  mkTransaction 1 AUTH (Some token) true None
    (Some (mkGatewayResponse true token None None)).

Definition capture_txn (token : string) : Transaction :=
  mkTransaction 1 CAPTURE (Some token) true None
    (Some (mkGatewayResponse true token None None)).

(** A store with an empty call record. *)
Definition fresh (p : Payment) (txns : list Transaction) : World :=
  mkWorld p txns [].

(** ** Vocabulary of the properties *)

(** The world after [gateway_postprocess(txn, txn.payment)]. *)
Definition postprocessed (E : Collaborators) (txn : Transaction) (w : World)
    : World :=
  mkWorld (gateway_postprocess E txn (payment w)) (transactions w)
          (trace w ++ [EvPostprocess txn]).

(** [silent m]: [m] creates no transaction and does not run the
    post-processing hook. *)
Definition silent {A : Type} (m : M A) : Prop :=
  forall w,
    transactions (snd (m w)) = transactions w /\
    postprocess_calls (trace (snd (m w))) = postprocess_calls (trace w).

(** [appends m]: [m] creates exactly the transaction it returns, or none
    when it raises, and does not run the post-processing hook. *)
Definition appends (m : M Transaction) : Prop :=
  forall w,
    postprocess_calls (trace (snd (m w))) = postprocess_calls (trace w) /\
    match fst (m w) with
    | Ok txn => transactions (snd (m w)) = transactions w ++ [txn]
    | Raise _ => transactions (snd (m w)) = transactions w
    end.

(** The gateway call fails: the backend raises, or it returns a response
    that [validate_gateway_response] rejects. *)
Definition gateway_call_fails (E : Collaborators)
    (f : Gateway -> PaymentData -> Result GatewayResponse)
    (g : Gateway) (data : PaymentData) : bool :=
  match f g data with
  | Raise _ => true
  | Ok r =>
      match validate_gateway_response E r with
      | Raise _ => true
      | Ok _ => false
      end
  end.

(** The amount [refund] works with: the explicit one, or
    [payment.captured_amount] when omitted. *)
Definition refund_amount (amount : option Decimal) (p : Payment) : Decimal :=
  match amount with
  | None => captured_amount p
  | Some a => a
  end.

(** The kind of prior transaction an operation needs a token from. *)
Definition prior_kind (c : Call) : option TransactionKind :=
  match c with
  | CallCapture _ _ | CallVoid | CallConfirm => Some AUTH
  | CallRefund _ => Some CAPTURE
  | CallProcess _ _ | CallAuthorize _ _ => None
  end.

(** The plugin-manager method an operation dispatches to. *)
Definition method_of (c : Call) : PluginMethod :=
  match c with
  | CallProcess _ _ => process_payment_method
  | CallAuthorize _ _ => authorize_payment_method
  | CallCapture _ _ => capture_payment_method
  | CallRefund _ => refund_payment_method
  | CallVoid => void_payment_method
  | CallConfirm => confirm_payment_method
  end.

(** The amount [capture] works with. *)
Definition capture_amount (E : Collaborators) (amount : option Decimal)
    (p : Payment) : Decimal :=
  match amount with
  | None => get_charge_amount E p
  | Some a => a
  end.

(** The guards an operation runs before it resolves the gateway. *)
Definition guards_pass (E : Collaborators) (c : Call) (p : Payment) : bool :=
  match c with
  | CallProcess _ _ | CallVoid | CallConfirm => true
  | CallAuthorize _ _ =>
      match clean_authorize E p with Ok _ => true | Raise _ => false end
  | CallCapture amount _ =>
      match clean_capture E p (capture_amount E amount p) with
      | Ok _ => true
      | Raise _ => false
      end
  | CallRefund amount =>
      match decimal_leb (refund_amount amount p) (Number 0),
            decimal_leb (refund_amount amount p) (captured_amount p) with
      | Some false, Some true => can_refund E p
      | _, _ => false
      end
  end.

(** The snapshot an operation hands to the backend, given the token of the
    prior transaction. *)
Definition payment_data_of (E : Collaborators) (c : Call) (p : Payment)
    (prior_token : option string) : PaymentData :=
  match c with
  | CallProcess token store_source | CallAuthorize token store_source =>
      mkPaymentData p (Some token) None store_source
  | CallCapture amount store_source =>
      mkPaymentData p prior_token (Some (capture_amount E amount p)) store_source
  | CallRefund amount =>
      mkPaymentData p prior_token (Some (refund_amount amount p)) false
  | CallVoid | CallConfirm => mkPaymentData p prior_token None false
  end.

(** The token of the prior transaction an operation works with: [tok] is
    the token of the first successful transaction of the required kind, in
    the order of [payment.transactions]; operations that need no prior
    transaction put no condition on it. *)
Definition prior_token_is (c : Call) (w : World) (tok : option string) : Prop :=
  match prior_kind c with
  | None => True
  | Some k =>
      exists txn rest,
        successful_of_kind k (transactions w) = txn :: rest /\
        tok = txn_token txn
  end.

(** The world after two successful [authorize] calls with the tokens "t1"
    and then "t2". *)
Definition two_authorizations : World :=
  snd (authorize E_accepting "t2" false
         (snd (authorize E_accepting "t1" false (fresh active_payment [])))).

(** The most recent successful transaction of a kind: the last one in the
    order in which the transactions were created. *)
Definition most_recent_successful (kind : TransactionKind)
    (txns : list Transaction) : option Transaction :=
  hd_error (rev (successful_of_kind kind txns)).

(** Collaborators whose [Gateway(...)] raises [AttributeError] on an
    unknown identifier, the exception the handler of [_get_gateway] names. *)
Definition E_attribute_error : Collaborators :=
  dummy (AttributeError "type object 'Gateway' has no attribute 'paypal'")
    accepting_backend.

(** Active payments whose gateway identifier is unrecognized, or unset. *)
Definition paypal_payment : Payment :=
  mkPayment 1 (Some "paypal") true (Number 0) (Number 100) None.

Definition unset_gateway_payment : Payment :=
  mkPayment 1 None true (Number 0) (Number 100) None.

(** ** Further observations and sample data *)

(** The responses [update_card_details] was called with. *)
Fixpoint card_updates (t : list Event) : list GatewayResponse :=
  match t with
  | [] => []
  | EvUpdateCard r :: t' => r :: card_updates t'
  | _ :: t' => card_updates t'
  end.

(** The messages handed to [logger.exception]. *)
Fixpoint log_entries (t : list Event) : list string :=
  match t with
  | [] => []
  | EvLog msg :: t' => msg :: log_entries t'
  | _ :: t' => log_entries t'
  end.

(** The read-only calls made to the plugin manager. *)
Definition plugin_queries (t : list Event) : list Event :=
  filter (fun e => match e with EvQuery _ => true | _ => false end) t.

(** What [clean_authorize] or [clean_capture] answers for a call; the other
    operations run no such check. *)
Definition clean_result (E : Collaborators) (c : Call) (p : Payment)
    : Result unit :=
  match c with
  | CallAuthorize _ _ => clean_authorize E p
  | CallCapture amount _ => clean_capture E p (capture_amount E amount p)
  | _ => Ok tt
  end.

(** A backend that accepts every call and reports the card it charged. *)
Definition card_backend (_ : PluginMethod) (_ : Gateway)
    (data : PaymentData) : Result GatewayResponse :=
  Ok (mkGatewayResponse true "cap-1" (Some "visa 4242") None).

Definition E_card : Collaborators := dummy unknown_gateway card_backend.

(** A transaction left behind by a declined authorization. *)
Definition failed_auth_txn : Transaction :=
  mkTransaction 1 AUTH (Some "declined-1") false (Some "Card declined")
    (Some (mkGatewayResponse false "declined-1" None (Some "Card declined"))).

(** Collaborators for which no payment can be refunded. *)
Definition E_not_refundable : Collaborators :=
  mkCollaborators
    (Gateway_lookup E_accepting) (get_charge_amount E_accepting)
    (fun _ => false)
    (clean_authorize E_accepting) (clean_capture E_accepting)
    (validate_gateway_response E_accepting)
    (update_card_details E_accepting) (gateway_postprocess E_accepting)
    (pm_process_payment E_accepting) (pm_authorize_payment E_accepting)
    (pm_capture_payment E_accepting) (pm_refund_payment E_accepting)
    (pm_void_payment E_accepting) (pm_confirm_payment E_accepting)
    (pm_create_payment_form E_accepting) (pm_list_payment_sources E_accepting)
    (pm_get_client_token E_accepting) (pm_list_payment_gateways E_accepting).


(** An unsuccessful transaction whose recorded error is the empty string. *)
Definition blank_error_txn : Transaction :=
  mkTransaction 1 AUTH None false (Some EmptyString) None.

(** The kind each operation passes to [create_transaction]. *)
Definition kind_of (c : Call) : TransactionKind :=
  match c with
  | CallProcess _ _ => CAPTURE
  | CallAuthorize _ _ => AUTH
  | CallCapture _ _ => CAPTURE
  | CallRefund _ => REFUND
  | CallVoid => VOID
  | CallConfirm => CONFIRM
  end.

(** The plugin-manager function each operation hands to
    [_fetch_gateway_response]. *)
Definition backend_of (E : Collaborators) (c : Call)
    : Gateway -> PaymentData -> Result GatewayResponse :=
  match c with
  | CallProcess _ _ => pm_process_payment E
  | CallAuthorize _ _ => pm_authorize_payment E
  | CallCapture _ _ => pm_capture_payment E
  | CallRefund _ => pm_refund_payment E
  | CallVoid => pm_void_payment E
  | CallConfirm => pm_confirm_payment E
  end.

(** [returns_kind k m]: a transaction that [m] returns has kind [k]. *)
Definition returns_kind (k : TransactionKind) (m : M Transaction) : Prop :=
  forall w txn, fst (m w) = Ok txn -> txn_kind txn = k.

(** * Proofs *)

(** ** General facts about the decorated operations *)

Lemma postprocess_calls_app (t1 t2 : list Event) :
  postprocess_calls (t1 ++ t2) = postprocess_calls t1 ++ postprocess_calls t2.
Proof.
  induction t1 as [|e t1 IH]; [reflexivity|].
  destruct e; cbn; rewrite ?IH; reflexivity.
Qed.

Lemma backend_calls_app (t1 t2 : list Event) :
  backend_calls (t1 ++ t2) = backend_calls t1 ++ backend_calls t2.
Proof. apply filter_app. Qed.

Lemma gateway_lookups_app (t1 t2 : list Event) :
  gateway_lookups (t1 ++ t2) = gateway_lookups t1 ++ gateway_lookups t2.
Proof. apply filter_app. Qed.

(** The three decorators, composed as on every mutating operation. *)
Lemma decorated_unfold (E : Collaborators) (body : M Transaction) (w : World) :
  payment_postprocess E (raise_payment_error (require_active_payment body)) w =
  if is_active (payment w) then
    match body w with
    | (Ok txn, w1) =>
        if txn_is_success txn then (Ok txn, postprocessed E txn w1)
        else (Raise (PaymentError (py_or (txn_error txn) GENERIC_TRANSACTION_ERROR)), w1)
    | (Raise e, w1) => (Raise e, w1)
    end
  else (Raise (PaymentError "This payment is no longer active."), w).
Proof.
  unfold payment_postprocess, raise_payment_error, require_active_payment,
    call_gateway_postprocess, postprocessed, bind, get_payment, emit,
    set_payment, ret, raise.
  destruct (is_active (payment w)); cbn; [|reflexivity].
  destruct (body w) as [[txn|e] w1]; cbn; [|reflexivity].
  destruct (txn_is_success txn); reflexivity.
Qed.

Lemma run_unfold (E : Collaborators) (c : Call) (w : World) :
  run E c w =
  if is_active (payment w) then
    match undecorated E c w with
    | (Ok txn, w1) =>
        if txn_is_success txn then (Ok txn, postprocessed E txn w1)
        else (Raise (PaymentError (py_or (txn_error txn) GENERIC_TRANSACTION_ERROR)), w1)
    | (Raise e, w1) => (Raise e, w1)
    end
  else (Raise (PaymentError "This payment is no longer active."), w).
Proof. destruct c; apply decorated_unfold. Qed.

(** *** Which steps can create a transaction or run the hook *)

Lemma silent_ret {A : Type} (a : A) : silent (ret a).
Proof. intro w; split; reflexivity. Qed.

Lemma silent_raise {A : Type} (e : Exn) : silent (@raise A e).
Proof. intro w; split; reflexivity. Qed.

Lemma silent_lift {A : Type} (r : Result A) : silent (lift r).
Proof. intro w; split; reflexivity. Qed.

Lemma silent_get_payment : silent get_payment.
Proof. intro w; split; reflexivity. Qed.

Lemma silent_get_transactions : silent get_transactions.
Proof. intro w; split; reflexivity. Qed.

Lemma silent_set_payment (p : Payment) : silent (set_payment p).
Proof. intro w; split; reflexivity. Qed.

Lemma silent_emit (e : Event) :
  postprocess_calls [e] = [] -> silent (emit e).
Proof.
  intros He w; split; [reflexivity|].
  cbn. rewrite postprocess_calls_app, He. apply app_nil_r.
Qed.

Lemma silent_bind {A B : Type} (m : M A) (k : A -> M B) :
  silent m -> (forall a, silent (k a)) -> silent (bind m k).
Proof.
  intros Hm Hk w. unfold bind.
  specialize (Hm w). destruct (m w) as [[a|e] w1]; cbn in *.
  - destruct (Hk a w1) as [H1 H2]. destruct Hm as [H3 H4].
    split; congruence.
  - exact Hm.
Qed.

Lemma silent_try_except {A : Type} (body : M A) (handler : Exn -> M A) :
  silent body -> (forall e, silent (handler e)) -> silent (try_except body handler).
Proof.
  intros Hm Hk w. unfold try_except.
  specialize (Hm w). destruct (body w) as [[a|e] w1]; cbn in *.
  - exact Hm.
  - destruct (Hk e w1) as [H1 H2]. destruct Hm as [H3 H4].
    split; congruence.
Qed.

Lemma silent_if {A : Type} (b : bool) (m1 m2 : M A) :
  silent m1 -> silent m2 -> silent (if b then m1 else m2).
Proof. destruct b; auto. Qed.

Lemma appends_raise (e : Exn) : appends (raise e).
Proof. intro w; split; reflexivity. Qed.

Lemma appends_bind {A : Type} (m : M A) (k : A -> M Transaction) :
  silent m -> (forall a, appends (k a)) -> appends (bind m k).
Proof.
  intros Hm Hk w. unfold bind.
  specialize (Hm w). destruct (m w) as [[a|e] w1]; cbn in *.
  - destruct (Hk a w1) as [H1 H2]. destruct Hm as [H3 H4].
    split; [congruence|].
    destruct (fst (k a w1)); congruence.
  - destruct Hm; split; assumption.
Qed.

Create HintDb silent_db.
#[local] Hint Resolve silent_ret silent_raise silent_lift silent_get_payment
  silent_get_transactions silent_set_payment silent_if appends_raise : silent_db.

Section Steps.

Variable E : Collaborators.

Lemma appends_create_transaction kind payment_information error_msg response :
  appends (create_transaction kind payment_information error_msg response).
Proof. intro w; split; reflexivity. Qed.

Lemma silent__get_gateway : silent (_get_gateway E).
Proof.
  unfold _get_gateway.
  apply silent_bind; [auto with silent_db|intro p].
  apply silent_bind; [apply silent_emit; reflexivity|intros _].
  apply silent_try_except; [auto with silent_db|intro e].
  destruct (is_AttributeError e); auto with silent_db.
Qed.

Lemma silent_create_payment_information token amount store_source :
  silent (create_payment_information token amount store_source).
Proof.
  unfold create_payment_information.
  apply silent_bind; auto with silent_db.
Qed.

Lemma silent__get_past_transaction_token kind :
  silent (_get_past_transaction_token kind).
Proof.
  unfold _get_past_transaction_token.
  apply silent_bind; [auto with silent_db|intro txns].
  destruct (hd_error _); auto with silent_db.
Qed.

Lemma silent__validate_refund_amound amount :
  silent (_validate_refund_amound amount).
Proof.
  unfold _validate_refund_amound.
  apply silent_bind; [auto with silent_db|intro p].
  apply silent_bind; [auto with silent_db|intro nonpositive].
  apply silent_if; [auto with silent_db|].
  apply silent_bind; [auto with silent_db|intro exceeds].
  apply silent_if; auto with silent_db.
Qed.

Lemma silent_plugin_call method f g data :
  silent (plugin_call method f g data).
Proof.
  unfold plugin_call.
  apply silent_bind; [apply silent_emit; reflexivity|intros _].
  auto with silent_db.
Qed.

Lemma silent__fetch_gateway_response fn g data :
  (forall g' data', silent (fn g' data')) ->
  silent (_fetch_gateway_response E fn g data).
Proof.
  intro Hfn. unfold _fetch_gateway_response, logger_exception.
  apply silent_try_except.
  - apply silent_bind; [apply Hfn|intro r].
    apply silent_bind; auto with silent_db.
  - intro e. destruct (is_GatewayError e);
      (apply silent_bind; [apply silent_emit; reflexivity|intros _; auto with silent_db]).
Qed.

Lemma silent_call_update_card_details r :
  silent (call_update_card_details E r).
Proof.
  unfold call_update_card_details.
  apply silent_bind; [auto with silent_db|intro p].
  apply silent_bind; [apply silent_emit; reflexivity|intros _].
  auto with silent_db.
Qed.

#[local] Hint Resolve appends_create_transaction silent__get_gateway
  silent_create_payment_information silent__get_past_transaction_token
  silent__validate_refund_amound silent_plugin_call
  silent__fetch_gateway_response silent_call_update_card_details : silent_db.

Ltac step_silent :=
  first
    [ apply appends_create_transaction
    | apply appends_raise
    | apply appends_bind;
        [ try match goal with
              | |- silent (match ?x with _ => _ end) => destruct x
              end;
          solve [auto with silent_db]
        | intro ]
    | match goal with
      | |- appends (match ?x with _ => _ end) => destruct x
      end ].

(** Every undecorated operation creates exactly the transaction it returns
    and none when it raises; none of them runs the hook. *)
Lemma undecorated_appends (c : Call) : appends (undecorated E c).
Proof.
  destruct c; cbn [undecorated];
    unfold process_payment_undecorated, authorize_undecorated,
      capture_undecorated, refund_undecorated, void_undecorated,
      confirm_undecorated;
    repeat step_silent.
Qed.

End Steps.

(** *** What a decorated operation leaves behind *)

Lemma app_one_neq {A : Type} (l : list A) (x : A) : l <> l ++ [x].
Proof.
  intro H. apply (f_equal (@length A)) in H.
  rewrite length_app in H. cbn in H. lia.
Qed.

(** A decorated operation returns only a successful transaction it created
    and post-processed; when it raises, it either created nothing or created
    one unsuccessful transaction whose error it raises, and the hook did not
    run. *)
Lemma run_outcome (E : Collaborators) (c : Call) (w : World) :
  match fst (run E c w) with
  | Ok txn =>
      transactions (snd (run E c w)) = transactions w ++ [txn] /\
      txn_is_success txn = true /\
      postprocess_calls (trace (snd (run E c w))) =
        postprocess_calls (trace w) ++ [txn]
  | Raise e =>
      postprocess_calls (trace (snd (run E c w))) = postprocess_calls (trace w) /\
      (transactions (snd (run E c w)) = transactions w \/
       exists txn,
         transactions (snd (run E c w)) = transactions w ++ [txn] /\
         txn_is_success txn = false /\
         e = PaymentError (py_or (txn_error txn) GENERIC_TRANSACTION_ERROR))
  end.
Proof.
  rewrite run_unfold.
  destruct (is_active (payment w)); [|cbn; auto].
  destruct (undecorated_appends E c w) as [Hpost Htx].
  destruct (undecorated E c w) as [[txn|e] w1]; cbn in *.
  - destruct (txn_is_success txn) eqn:Hs; cbn.
    + rewrite postprocess_calls_app, Hpost. auto.
    + split; [assumption|]. right. exists txn. auto.
  - auto.
Qed.

(** ** Properties of the decorators *)

(** C3.  On a payment with [is_active = false] each of the six mutating
    operations raises the inactive-payment [PaymentError] and leaves the
    store as it was: no gateway backend is invoked and no Transaction is
    created. *)
Theorem inactive_payment_rejected (E : Collaborators) (c : Call) (w : World) :
  is_active (payment w) = false ->
  fst (run E c w) = Raise (PaymentError "This payment is no longer active.") /\
  snd (run E c w) = w /\
  backend_calls (trace (snd (run E c w))) = backend_calls (trace w) /\
  transactions (snd (run E c w)) = transactions w.
Proof.
  intro H. rewrite run_unfold, H. cbn. auto.
Qed.

Lemma inactive_payment_rejected_witness :
  is_active (payment (fresh inactive_payment [capture_txn "c-1"])) = false /\
  fst (run E_accepting (CallRefund None) (fresh inactive_payment [capture_txn "c-1"]))
    = Raise (PaymentError "This payment is no longer active.").
Proof.
  split; [reflexivity|].
  apply (inactive_payment_rejected E_accepting (CallRefund None)
           (fresh inactive_payment [capture_txn "c-1"])).
  reflexivity.
Defined.

(** C9.  Whenever an operation created a Transaction: if its [is_success]
    is false the operation raises a [PaymentError] whose message is the
    transaction's recorded error, or the fixed generic message when the
    transaction records none; if [is_success] is true the transaction is
    returned and nothing is raised. *)
Theorem unsuccessful_transaction_raises (E : Collaborators) (c : Call)
    (w : World) (txn : Transaction) :
  transactions (snd (run E c w)) = transactions w ++ [txn] ->
  (txn_is_success txn = true -> fst (run E c w) = Ok txn) /\
  (txn_is_success txn = false ->
   exists msg,
     fst (run E c w) = Raise (PaymentError msg) /\
     (forall e, txn_error txn = Some e -> e <> EmptyString -> msg = e) /\
     (txn_error txn = None -> msg = "Transaction was unsuccessful")).
Proof.
  intro Htx. pose proof (run_outcome E c w) as H.
  destruct (fst (run E c w)) as [txn'|e].
  - destruct H as [H1 [H2 _]]. rewrite H1 in Htx.
    apply app_inj_tail in Htx. destruct Htx as [_ ->].
    split; [reflexivity|congruence].
  - destruct H as [_ [H|[txn' [H1 [H2 H3]]]]].
    + rewrite H in Htx. exfalso. exact (app_one_neq _ _ Htx).
    + rewrite H1 in Htx. apply app_inj_tail in Htx. destruct Htx as [_ ->].
      split; [congruence|]. intros _.
      exists (py_or (txn_error txn) GENERIC_TRANSACTION_ERROR).
      split; [congruence|]. split.
      * intros e0 -> Hne. destruct e0; [congruence|reflexivity].
      * intros ->. reflexivity.
Qed.

Lemma unsuccessful_transaction_raises_witness :
  let w := fresh active_payment [] in
  let txn :=
    mkTransaction 1 AUTH (Some "declined-1") false (Some "Card declined")
      (Some (mkGatewayResponse false "declined-1" None (Some "Card declined"))) in
  transactions (snd (run E_declining (CallAuthorize "tok" false) w)) =
    transactions w ++ [txn] /\
  txn_is_success txn = false /\
  fst (run E_declining (CallAuthorize "tok" false) w) =
    Raise (PaymentError "Card declined").
Proof.
  cbv zeta.
  split; [reflexivity|]. split; [reflexivity|].
  destruct (unsuccessful_transaction_raises E_declining (CallAuthorize "tok" false)
              (fresh active_payment [])
              (mkTransaction 1 AUTH (Some "declined-1") false (Some "Card declined")
                 (Some (mkGatewayResponse false "declined-1" None
                          (Some "Card declined"))))
              eq_refl) as [_ H].
  destruct (H eq_refl) as [msg [Hr [Hm _]]].
  rewrite Hr. rewrite (Hm "Card declined"); [reflexivity|reflexivity|discriminate].
Defined.

(** C2, the claim as stated fails: [authorize] with a backend that raises
    produces a Transaction with [is_success = false], and the
    post-processing hook is never run on it. *)
Lemma postprocess_skipped_on_failure :
  let txn := mkTransaction 1 AUTH None false (Some "Oops! Something went wrong.") None in
  let w' := snd (authorize E_raising "tok" false (fresh active_payment [])) in
  transactions w' = [txn] /\
  txn_is_success txn = false /\
  postprocess_calls (trace w') = [].
Proof. vm_compute. auto. Qed.

(** C2, amended.  Whenever an operation created a Transaction, the
    post-processing hook runs on that transaction, exactly once, when its
    [is_success] is true; when [is_success] is false the [PaymentError] is
    raised first and the hook does not run. *)
Theorem postprocess_runs_on_success_only (E : Collaborators) (c : Call)
    (w : World) (txn : Transaction) :
  transactions (snd (run E c w)) = transactions w ++ [txn] ->
  postprocess_calls (trace (snd (run E c w))) =
    postprocess_calls (trace w) ++ (if txn_is_success txn then [txn] else []).
Proof.
  intro Htx. pose proof (run_outcome E c w) as H.
  destruct (fst (run E c w)) as [txn'|e].
  - destruct H as [H1 [H2 H3]]. rewrite H1 in Htx.
    apply app_inj_tail in Htx. destruct Htx as [_ ->].
    rewrite H2. exact H3.
  - destruct H as [Hp [H|[txn' [H1 [H2 H3]]]]].
    + rewrite H in Htx. exfalso. exact (app_one_neq _ _ Htx).
    + rewrite H1 in Htx. apply app_inj_tail in Htx. destruct Htx as [_ ->].
      rewrite H2, app_nil_r. exact Hp.
Qed.

Lemma postprocess_runs_on_success_only_witness :
  let w := fresh active_payment [] in
  transactions (snd (run E_accepting (CallAuthorize "tok" false) w)) =
    transactions w ++ [auth_txn "tok"] /\
  postprocess_calls
    (trace (snd (run E_accepting (CallAuthorize "tok" false) w)))
  = [auth_txn "tok"].
Proof.
  cbv zeta. split; [reflexivity|].
  apply (postprocess_runs_on_success_only E_accepting (CallAuthorize "tok" false)
           (fresh active_payment []) (auth_txn "tok")).
  reflexivity.
Defined.

(** ** Gateway faults *)

Lemma _get_gateway_resolved (E : Collaborators) (w : World) (g : Gateway) :
  Gateway_lookup E (gateway (payment w)) = Ok g ->
  _get_gateway E w =
  (Ok g, mkWorld (payment w) (transactions w)
           (trace w ++ [EvGateway (gateway (payment w))])).
Proof.
  intro H. unfold _get_gateway, try_except, bind, get_payment, emit, lift.
  cbn. rewrite H. reflexivity.
Qed.

Lemma _fetch_gateway_response_failed (E : Collaborators) method f g data w :
  gateway_call_fails E f g data = true ->
  exists msg,
    _fetch_gateway_response E (plugin_call method f) g data w =
    (Ok (None, Some ERROR_MSG),
     mkWorld (payment w) (transactions w)
       ((trace w ++ [EvBackend method g data]) ++ [EvLog msg])).
Proof.
  unfold gateway_call_fails, _fetch_gateway_response, plugin_call,
    logger_exception, try_except, bind, emit, lift, ret.
  cbn. intro H.
  destruct (f g data) as [r|e]; cbn.
  - destruct (validate_gateway_response E r) as [u|e]; [discriminate|].
    cbn. destruct (is_GatewayError e); cbn; eexists; reflexivity.
  - destruct (is_GatewayError e); cbn; eexists; reflexivity.
Qed.

Lemma _fetch_gateway_response_validated (E : Collaborators) method f g data w r :
  f g data = Ok r ->
  validate_gateway_response E r = Ok tt ->
  _fetch_gateway_response E (plugin_call method f) g data w =
  (Ok (Some r, None),
   mkWorld (payment w) (transactions w) (trace w ++ [EvBackend method g data])).
Proof.
  unfold _fetch_gateway_response, plugin_call,
    logger_exception, try_except, bind, emit, lift, ret.
  cbn. intros -> H. cbn. rewrite H. reflexivity.
Qed.

(** C4.  When, during [authorize] on an active payment, the gateway backend
    raises or returns a response that fails validation, a Transaction with
    kind AUTH, [is_success = false] and error "Oops! Something went wrong."
    is persisted, and the call raises a [PaymentError] with that same
    message. *)
Theorem authorize_gateway_fault_recorded (E : Collaborators) (token : string)
    (store_source : bool) (w : World) (g : Gateway) :
  is_active (payment w) = true ->
  clean_authorize E (payment w) = Ok tt ->
  Gateway_lookup E (gateway (payment w)) = Ok g ->
  gateway_call_fails E (pm_authorize_payment E) g
    (mkPaymentData (payment w) (Some token) None store_source) = true ->
  fst (authorize E token store_source w) =
    Raise (PaymentError "Oops! Something went wrong.") /\
  exists txn,
    transactions (snd (authorize E token store_source w)) =
      transactions w ++ [txn] /\
    txn_kind txn = AUTH /\
    txn_is_success txn = false /\
    txn_error txn = Some "Oops! Something went wrong.".
Proof.
  intros Hact Hclean Hgw Hfail.
  destruct (_fetch_gateway_response_failed E authorize_payment_method _ g _
              (mkWorld (payment w) (transactions w)
                 (trace w ++ [EvGateway (gateway (payment w))])) Hfail)
    as [msg Hfetch].
  cbn [payment transactions trace] in Hfetch.
  assert (Hrun : authorize_undecorated E token store_source w =
    (Ok (mkTransaction (payment_id (payment w)) AUTH None false
           (Some ERROR_MSG) None),
     mkWorld (payment w)
       (transactions w ++
          [mkTransaction (payment_id (payment w)) AUTH None false
             (Some ERROR_MSG) None])
       ((trace w ++ [EvGateway (gateway (payment w))]) ++
        [EvBackend authorize_payment_method g
           (mkPaymentData (payment w) (Some token) None store_source)] ++
        [EvLog msg]))).
  { unfold authorize_undecorated, create_payment_information, bind,
      get_payment, lift, ret.
    cbn. rewrite Hclean, (_get_gateway_resolved E w g Hgw).
    cbn. rewrite Hfetch. cbn. rewrite <- app_assoc. reflexivity. }
  unfold authorize. rewrite decorated_unfold, Hact, Hrun. cbn.
  split; [reflexivity|].
  eexists. repeat split; reflexivity.
Qed.

Lemma authorize_gateway_fault_recorded_witness :
  is_active (payment (fresh active_payment [])) = true /\
  fst (authorize E_raising "tok" false (fresh active_payment [])) =
    Raise (PaymentError "Oops! Something went wrong.").
Proof.
  split; [reflexivity|].
  apply (authorize_gateway_fault_recorded E_raising "tok" false
           (fresh active_payment []) (GatewayMember "dummy"));
    reflexivity.
Defined.

(** ** The refund guards *)

Lemma _validate_refund_amound_eval (amount : Decimal) (w : World) :
  _validate_refund_amound amount w =
  match decimal_leb amount (Number 0) with
  | None => (Raise InvalidOperation, w)
  | Some true => (Raise (PaymentError "Amount should be a positive number."), w)
  | Some false =>
      match decimal_leb amount (captured_amount (payment w)) with
      | None => (Raise InvalidOperation, w)
      | Some true => (Ok tt, w)
      | Some false => (Raise (PaymentError "Cannot refund more than captured"), w)
      end
  end.
Proof.
  unfold _validate_refund_amound, Decimal_le, Decimal_gt, bind, get_payment,
    lift, raise, ret.
  cbn.
  destruct (decimal_leb amount (Number 0)) as [[|]|]; try reflexivity.
  destruct (decimal_leb amount (captured_amount (payment w))) as [[|]|];
    reflexivity.
Qed.

Lemma Qle_bool_false_lt (x y : Q) : Qle_bool x y = false -> (y < x)%Q.
Proof.
  intro H. apply Qnot_le_lt. intro Hle.
  apply Qle_bool_iff in Hle. congruence.
Qed.

Lemma Qlt_Qle_bool_false (x y : Q) : (y < x)%Q -> Qle_bool x y = false.
Proof.
  intro H. destruct (Qle_bool x y) eqn:Hb; [|reflexivity].
  apply Qle_bool_iff in Hb. exfalso. exact (Qlt_not_le _ _ H Hb).
Qed.

(** The comparison of the code against the order. *)
Lemma decimal_leb_true (x y : Decimal) :
  decimal_leb x y = Some true <-> decimal_le x y.
Proof.
  destruct x as [a|[|]|], y as [b|[|]|]; cbn;
    try (split; [intro; exact I|reflexivity]);
    try (split; [discriminate|intros []]).
  split.
  - intro H. inversion H. apply Qle_bool_iff. assumption.
  - intro H. apply Qle_bool_iff in H. rewrite H. reflexivity.
Qed.

Lemma decimal_leb_false (x y : Decimal) :
  decimal_leb x y = Some false <-> decimal_lt y x.
Proof.
  destruct x as [a|[|]|], y as [b|[|]|]; cbn;
    try (split; [intro; exact I|reflexivity]);
    try (split; [discriminate|intros []]).
  split.
  - intro H. inversion H. apply Qle_bool_false_lt. assumption.
  - intro H. rewrite (Qlt_Qle_bool_false _ _ H). reflexivity.
Qed.

(** On numbers the order is the order of the rationals. *)
Lemma decimal_order_on_numbers (a b : Q) :
  (decimal_le (Number a) (Number b) <-> (a <= b)%Q) /\
  (decimal_lt (Number a) (Number b) <-> (a < b)%Q).
Proof. split; reflexivity. Qed.

Lemma decimal_leb_none (x y : Decimal) :
  decimal_leb x y = None <-> x = NaN \/ y = NaN.
Proof.
  destruct x as [a|[|]|], y as [b|[|]|]; cbn;
    try (split; [auto|reflexivity]);
    (split; [discriminate|intros [H|H]; discriminate]).
Qed.

Lemma decimal_leb_refl (x : Decimal) : x <> NaN -> decimal_leb x x = Some true.
Proof.
  destruct x as [a|[|]|]; cbn; intro H; try reflexivity; [|congruence].
  assert (Hle : Qle_bool a a = true) by (apply Qle_bool_iff; apply Qle_refl).
  rewrite Hle. reflexivity.
Qed.

Lemma refund_guards_pass_inv (E : Collaborators) (amount : option Decimal)
    (p : Payment) :
  guards_pass E (CallRefund amount) p = true ->
  decimal_leb (refund_amount amount p) (Number 0) = Some false /\
  decimal_leb (refund_amount amount p) (captured_amount p) = Some true /\
  can_refund E p = true.
Proof.
  cbn.
  destruct (decimal_leb (refund_amount amount p) (Number 0)) as [[|]|];
    try discriminate.
  destruct (decimal_leb (refund_amount amount p) (captured_amount p)) as [[|]|];
    try discriminate.
  auto.
Qed.

(** A refund whose amount or payment fails a guard is rejected and the
    store is untouched: with a [PaymentError] when the amounts are numbers,
    with [decimal.InvalidOperation] when the payment is active and the
    amount is a NaN. *)
Lemma refund_rejected (E : Collaborators) (amount : option Decimal) (w : World) :
  ~ (decimal_lt (Number 0) (refund_amount amount (payment w)) /\
     decimal_le (refund_amount amount (payment w)) (captured_amount (payment w)) /\
     can_refund E (payment w) = true) ->
  exists e,
    refund E amount w = (Raise e, w) /\
    (refund_amount amount (payment w) <> NaN ->
     captured_amount (payment w) <> NaN ->
     exists msg, e = PaymentError msg) /\
    (is_active (payment w) = true ->
     refund_amount amount (payment w) = NaN ->
     e = InvalidOperation).
Proof.
  intro Hguard. unfold refund. rewrite decorated_unfold.
  destruct (is_active (payment w)).
  2: { eexists. split; [reflexivity|]. split; [eauto|discriminate]. }
  unfold refund_undecorated. unfold bind at 1, get_payment at 1.
  fold (refund_amount amount (payment w)).
  unfold bind at 1. rewrite _validate_refund_amound_eval.
  destruct (decimal_leb (refund_amount amount (payment w)) (Number 0))
    as [[|]|] eqn:H0.
  - eexists. split; [reflexivity|]. split; [eauto|].
    intros _ Hnan. rewrite Hnan in H0. discriminate.
  - destruct (decimal_leb (refund_amount amount (payment w))
                (captured_amount (payment w))) as [[|]|] eqn:H1.
    + unfold bind at 1.
      destruct (can_refund E (payment w)) eqn:H2; cbn.
      * exfalso. apply Hguard. split; [|split].
        -- apply decimal_leb_false. exact H0.
        -- apply decimal_leb_true. exact H1.
        -- reflexivity.
      * eexists. split; [reflexivity|]. split; [eauto|].
        intros _ Hnan. rewrite Hnan in H0. discriminate.
    + eexists. split; [reflexivity|]. split; [eauto|].
      intros _ Hnan. rewrite Hnan in H0. discriminate.
    + eexists. split; [reflexivity|]. split; [|reflexivity].
      intros Ha Hc. apply decimal_leb_none in H1. destruct H1; contradiction.
  - eexists. split; [reflexivity|]. split; [|reflexivity].
    intros Ha _. apply decimal_leb_none in H0.
    destruct H0 as [H0|H0]; [contradiction|discriminate].
Qed.

(** C5, the claim as stated fails: [refund] with the amount
    [Decimal('NaN')] on an active payment with 100 captured fails the
    condition [0 < a <= captured_amount], and the call raises
    [decimal.InvalidOperation] at [amount <= 0], not a [PaymentError]. *)
Lemma refund_nan_is_not_a_payment_error :
  let w := fresh captured_payment [capture_txn "c-1"] in
  ~ (decimal_lt (Number 0) (refund_amount (Some NaN) (payment w)) /\
     decimal_le (refund_amount (Some NaN) (payment w)) (captured_amount (payment w))) /\
  refund E_accepting (Some NaN) w = (Raise InvalidOperation, w) /\
  forall msg, fst (refund E_accepting (Some NaN) w) <> Raise (PaymentError msg).
Proof.
  cbv zeta. split; [|split].
  - cbn. intros [[] _].
  - reflexivity.
  - intros msg H. discriminate.
Qed.

(** C5, amended.  For every [refund] call with amount [a] (the explicit
    amount, or [payment.captured_amount] when omitted): the backend is
    invoked only if [0 < a <= payment.captured_amount] and
    [payment.can_refund()] is true; otherwise no Transaction is created and
    the call raises: a [PaymentError] when [a] and
    [payment.captured_amount] are not NaN, [decimal.InvalidOperation] when
    the payment is active and [a] is a NaN. *)
Theorem refund_guarded (E : Collaborators) (amount : option Decimal) (w : World) :
  let a := refund_amount amount (payment w) in
  let guards :=
    decimal_lt (Number 0) a /\ decimal_le a (captured_amount (payment w)) /\
    can_refund E (payment w) = true in
  (backend_calls (trace (snd (refund E amount w))) <> backend_calls (trace w) ->
   guards) /\
  (~ guards ->
   transactions (snd (refund E amount w)) = transactions w /\
   backend_calls (trace (snd (refund E amount w))) = backend_calls (trace w) /\
   (a <> NaN -> captured_amount (payment w) <> NaN ->
    exists msg, fst (refund E amount w) = Raise (PaymentError msg)) /\
   (is_active (payment w) = true -> a = NaN ->
    fst (refund E amount w) = Raise InvalidOperation)).
Proof.
  cbv zeta. split.
  - intro Hcalls.
    destruct (decimal_leb (refund_amount amount (payment w)) (Number 0))
      as [[|]|] eqn:H0.
    + exfalso. apply Hcalls.
      destruct (refund_rejected E amount w) as [e [-> _]]; [|reflexivity].
      intros [Hlt _]. apply decimal_leb_false in Hlt. congruence.
    + destruct (decimal_leb (refund_amount amount (payment w))
                  (captured_amount (payment w))) as [[|]|] eqn:H1.
      * destruct (can_refund E (payment w)) eqn:H2.
        -- split; [apply decimal_leb_false; exact H0|].
           split; [apply decimal_leb_true; exact H1|reflexivity].
        -- exfalso. apply Hcalls.
           destruct (refund_rejected E amount w) as [e [-> _]]; [|reflexivity].
           intros [_ [_ Hc]]. congruence.
      * exfalso. apply Hcalls.
        destruct (refund_rejected E amount w) as [e [-> _]]; [|reflexivity].
        intros [_ [Hle _]]. apply decimal_leb_true in Hle. congruence.
      * exfalso. apply Hcalls.
        destruct (refund_rejected E amount w) as [e [-> _]]; [|reflexivity].
        intros [_ [Hle _]]. apply decimal_leb_true in Hle. congruence.
    + exfalso. apply Hcalls.
      destruct (refund_rejected E amount w) as [e [-> _]]; [|reflexivity].
      intros [Hlt _]. apply decimal_leb_false in Hlt. congruence.
  - intro Hguard.
    destruct (refund_rejected E amount w Hguard) as [e [-> [Hp Hn]]]. cbn.
    split; [reflexivity|]. split; [reflexivity|]. split.
    + intros Ha Hc. destruct (Hp Ha Hc) as [msg ->]. exists msg. reflexivity.
    + intros Hact Ha. rewrite (Hn Hact Ha). reflexivity.
Qed.

Lemma refund_guarded_witness :
  (exists msg,
     fst (refund E_accepting (Some (Number 150)) (fresh captured_payment [capture_txn "c-1"]))
     = Raise (PaymentError msg)) /\
  transactions (snd (refund E_accepting (Some (Number 150))
                       (fresh captured_payment [capture_txn "c-1"])))
  = [capture_txn "c-1"] /\
  fst (refund E_accepting (Some NaN) (fresh captured_payment [capture_txn "c-1"]))
  = Raise InvalidOperation.
Proof.
  destruct (refund_guarded E_accepting (Some (Number 150))
              (fresh captured_payment [capture_txn "c-1"])) as [_ H].
  destruct H as [H1 [_ [H2 _]]].
  - cbn. intros [_ [Hle _]]. revert Hle. unfold Qle. cbn. lia.
  - split; [apply H2; discriminate|]. split; [exact H1|].
    destruct (refund_guarded E_accepting (Some NaN)
                (fresh captured_payment [capture_txn "c-1"])) as [_ H'].
    destruct H' as [_ [_ [_ H3]]].
    + cbn. intros [[] _].
    + apply H3; reflexivity.
Defined.

(** C10.  On an active payment with [captured_amount <= 0], [refund] with
    no explicit amount raises [PaymentError] "Amount should be a positive
    number." and leaves the store as it was: the gateway is not resolved,
    the backend is not invoked and no Transaction is created. *)
Theorem refund_default_nonpositive (E : Collaborators) (w : World) :
  is_active (payment w) = true ->
  decimal_le (captured_amount (payment w)) (Number 0) ->
  fst (refund E None w) =
    Raise (PaymentError "Amount should be a positive number.") /\
  snd (refund E None w) = w /\
  gateway_lookups (trace (snd (refund E None w))) = gateway_lookups (trace w) /\
  backend_calls (trace (snd (refund E None w))) = backend_calls (trace w) /\
  transactions (snd (refund E None w)) = transactions w.
Proof.
  intros Hact Hle.
  assert (Hrun : refund E None w =
    (Raise (PaymentError "Amount should be a positive number."), w)).
  { unfold refund. rewrite decorated_unfold, Hact.
    unfold refund_undecorated. unfold bind at 1, get_payment at 1.
    unfold bind at 1. rewrite _validate_refund_amound_eval.
    apply decimal_leb_true in Hle. rewrite Hle. reflexivity. }
  rewrite Hrun. cbn. auto.
Qed.

Lemma refund_default_nonpositive_witness :
  is_active (payment (fresh active_payment [capture_txn "c-1"])) = true /\
  decimal_le (captured_amount (payment (fresh active_payment [capture_txn "c-1"])))
    (Number 0) /\
  fst (refund E_accepting None (fresh active_payment [capture_txn "c-1"])) =
    Raise (PaymentError "Amount should be a positive number.").
Proof.
  assert (Hle : decimal_le
                  (captured_amount (payment (fresh active_payment [capture_txn "c-1"])))
                  (Number 0)).
  { cbn. unfold Qle. cbn. lia. }
  split; [reflexivity|]. split; [exact Hle|].
  apply (refund_default_nonpositive E_accepting
           (fresh active_payment [capture_txn "c-1"]) eq_refl Hle).
Defined.

(** ** The prior-transaction lookup *)

Lemma _get_past_transaction_token_eval (kind : TransactionKind) (w : World) :
  _get_past_transaction_token kind w =
  match successful_of_kind kind (transactions w) with
  | [] => (Raise (PaymentError "Cannot find successful {kind.value} transaction"), w)
  | txn :: _ => (Ok (txn_token txn), w)
  end.
Proof.
  unfold _get_past_transaction_token, bind, get_transactions. cbn.
  destruct (successful_of_kind kind (transactions w)); reflexivity.
Qed.

(** Whatever the backend does, one call to it is recorded and the
    transactions are left alone. *)
Lemma _fetch_gateway_response_calls (E : Collaborators) method f g data w :
  exists response error evs,
    _fetch_gateway_response E (plugin_call method f) g data w =
    (Ok (response, error),
     mkWorld (payment w) (transactions w)
       (trace w ++ EvBackend method g data :: evs)) /\
    backend_calls evs = [].
Proof.
  unfold _fetch_gateway_response, plugin_call, logger_exception, try_except,
    bind, emit, lift, ret.
  cbn.
  destruct (f g data) as [r|e]; cbn.
  - destruct (validate_gateway_response E r) as [u|e]; cbn.
    + exists (Some r), None, []. split; reflexivity.
    + destruct (is_GatewayError e); cbn; do 3 eexists;
        (split; [rewrite <- app_assoc; reflexivity|reflexivity]).
  - destruct (is_GatewayError e); cbn; do 3 eexists;
      (split; [rewrite <- app_assoc; reflexivity|reflexivity]).
Qed.

Ltac eval_guards :=
  unfold create_payment_information;
  unfold bind, get_payment, lift, ret, raise;
  cbn [payment transactions trace fst snd].

(** Once the guards passed and the gateway is resolved, an operation that
    needs a prior transaction and finds none stops there. *)
Lemma undecorated_no_prior (E : Collaborators) (c : Call) (k : TransactionKind)
    (w : World) (g : Gateway) :
  prior_kind c = Some k ->
  guards_pass E c (payment w) = true ->
  Gateway_lookup E (gateway (payment w)) = Ok g ->
  successful_of_kind k (transactions w) = [] ->
  undecorated E c w =
  (Raise (PaymentError "Cannot find successful {kind.value} transaction"),
   mkWorld (payment w) (transactions w)
     (trace w ++ [EvGateway (gateway (payment w))])).
Proof.
  intros Hk Hguard Hgw Hnone.
  destruct c; cbn in Hk; inversion Hk; subst k; cbn [undecorated].
  - unfold capture_undecorated. eval_guards.
    fold (capture_amount E amount (payment w)).
    cbn in Hguard.
    destruct (clean_capture E (payment w) (capture_amount E amount (payment w)));
      [|discriminate].
    rewrite (_get_gateway_resolved E w g Hgw).
    rewrite _get_past_transaction_token_eval. cbn [transactions].
    rewrite Hnone. reflexivity.
  - unfold refund_undecorated. eval_guards.
    fold (refund_amount amount (payment w)).
    destruct (refund_guards_pass_inv E amount (payment w) Hguard)
      as [H1 [H2 H3]].
    rewrite _validate_refund_amound_eval, H1, H2, H3. cbn.
    rewrite (_get_gateway_resolved E w g Hgw).
    rewrite _get_past_transaction_token_eval. cbn [transactions].
    rewrite Hnone. reflexivity.
  - unfold void_undecorated. eval_guards.
    rewrite (_get_gateway_resolved E w g Hgw).
    rewrite _get_past_transaction_token_eval. cbn [transactions].
    rewrite Hnone. reflexivity.
  - unfold confirm_undecorated. eval_guards.
    rewrite (_get_gateway_resolved E w g Hgw).
    rewrite _get_past_transaction_token_eval. cbn [transactions].
    rewrite Hnone. reflexivity.
Qed.

(** Once the guards passed, the gateway is resolved and the prior token is
    found, an operation calls the backend exactly once, with the snapshot
    that carries that token. *)
Lemma undecorated_dispatches (E : Collaborators) (c : Call) (w : World)
    (g : Gateway) (tok : option string) :
  guards_pass E c (payment w) = true ->
  Gateway_lookup E (gateway (payment w)) = Ok g ->
  prior_token_is c w tok ->
  exists evs,
    trace (snd (undecorated E c w)) =
      trace w ++
        EvGateway (gateway (payment w)) ::
        EvBackend (method_of c) g (payment_data_of E c (payment w) tok) :: evs /\
    backend_calls evs = [] /\
    match c with
    | CallCapture _ _ => True
    | _ => exists txn, fst (undecorated E c w) = Ok txn
    end.
Proof.
  intros Hguard Hgw Htok. unfold prior_token_is in Htok.
  destruct c; cbn [undecorated method_of payment_data_of prior_kind guards_pass] in *.
  - unfold process_payment_undecorated. eval_guards.
    rewrite (_get_gateway_resolved E w g Hgw). cbn [payment transactions trace].
    match goal with
    | |- context [_fetch_gateway_response E (plugin_call ?m ?f) ?g ?d ?w0] =>
        destruct (_fetch_gateway_response_calls E m f g d w0)
          as [response [error [evs [Hfetch Hevs]]]]
    end.
    rewrite Hfetch. cbn. exists evs. rewrite <- app_assoc. cbn. eauto.
  - unfold authorize_undecorated. eval_guards.
    destruct (clean_authorize E (payment w)); [|discriminate].
    rewrite (_get_gateway_resolved E w g Hgw). cbn [payment transactions trace].
    match goal with
    | |- context [_fetch_gateway_response E (plugin_call ?m ?f) ?g ?d ?w0] =>
        destruct (_fetch_gateway_response_calls E m f g d w0)
          as [response [error [evs [Hfetch Hevs]]]]
    end.
    rewrite Hfetch. cbn. exists evs. rewrite <- app_assoc. cbn. eauto.
  - destruct Htok as [txn [rest [Hfound ->]]].
    unfold capture_undecorated. eval_guards.
    fold (capture_amount E amount (payment w)).
    destruct (clean_capture E (payment w) (capture_amount E amount (payment w)));
      [|discriminate].
    rewrite (_get_gateway_resolved E w g Hgw).
    rewrite _get_past_transaction_token_eval. cbn [transactions payment].
    rewrite Hfound.
    match goal with
    | |- context [_fetch_gateway_response E (plugin_call ?m ?f) ?g ?d ?w0] =>
        destruct (_fetch_gateway_response_calls E m f g d w0)
          as [response [error [evs [Hfetch Hevs]]]]
    end.
    rewrite Hfetch. cbn [trace].
    destruct response as [r|]; cbn.
    + unfold call_update_card_details, bind, get_payment, emit, set_payment, ret.
      destruct (gr_card_info r); cbn.
      * exists (evs ++ [EvUpdateCard r]).
        rewrite <- !app_assoc. cbn. split; [reflexivity|]. split; [|exact I].
        unfold backend_calls in *. rewrite filter_app, Hevs. reflexivity.
      * exists evs. rewrite <- app_assoc. cbn. auto.
    + exists evs. rewrite <- app_assoc. cbn. auto.
  - destruct Htok as [txn [rest [Hfound ->]]].
    unfold refund_undecorated. eval_guards.
    fold (refund_amount amount (payment w)).
    destruct (refund_guards_pass_inv E amount (payment w) Hguard)
      as [H1 [H2 H3]].
    rewrite _validate_refund_amound_eval, H1, H2, H3. cbn.
    rewrite (_get_gateway_resolved E w g Hgw).
    rewrite _get_past_transaction_token_eval. cbn [transactions payment].
    rewrite Hfound.
    match goal with
    | |- context [_fetch_gateway_response E (plugin_call ?m ?f) ?g ?d ?w0] =>
        destruct (_fetch_gateway_response_calls E m f g d w0)
          as [response [error [evs [Hfetch Hevs]]]]
    end.
    rewrite Hfetch. cbn. exists evs. rewrite <- app_assoc. cbn. eauto.
  - destruct Htok as [txn [rest [Hfound ->]]].
    unfold void_undecorated. eval_guards.
    rewrite (_get_gateway_resolved E w g Hgw).
    rewrite _get_past_transaction_token_eval. cbn [transactions payment].
    rewrite Hfound.
    match goal with
    | |- context [_fetch_gateway_response E (plugin_call ?m ?f) ?g ?d ?w0] =>
        destruct (_fetch_gateway_response_calls E m f g d w0)
          as [response [error [evs [Hfetch Hevs]]]]
    end.
    rewrite Hfetch. cbn. exists evs. rewrite <- app_assoc. cbn. eauto.
  - destruct Htok as [txn [rest [Hfound ->]]].
    unfold confirm_undecorated. eval_guards.
    rewrite (_get_gateway_resolved E w g Hgw).
    rewrite _get_past_transaction_token_eval. cbn [transactions payment].
    rewrite Hfound.
    match goal with
    | |- context [_fetch_gateway_response E (plugin_call ?m ?f) ?g ?d ?w0] =>
        destruct (_fetch_gateway_response_calls E m f g d w0)
          as [response [error [evs [Hfetch Hevs]]]]
    end.
    rewrite Hfetch. cbn. exists evs. rewrite <- app_assoc. cbn. eauto.
Qed.

Lemma run_dispatches (E : Collaborators) (c : Call) (w : World)
    (g : Gateway) (tok : option string) :
  is_active (payment w) = true ->
  guards_pass E c (payment w) = true ->
  Gateway_lookup E (gateway (payment w)) = Ok g ->
  prior_token_is c w tok ->
  backend_calls (trace (snd (run E c w))) =
    backend_calls (trace w) ++
      [EvBackend (method_of c) g (payment_data_of E c (payment w) tok)].
Proof.
  intros Hact Hguard Hgw Htok.
  destruct (undecorated_dispatches E c w g tok Hguard Hgw Htok)
    as [evs [Htrace [Hevs _]]].
  rewrite run_unfold, Hact.
  destruct (undecorated E c w) as [[txn|e] w1]; cbn in *.
  - destruct (txn_is_success txn); cbn [snd postprocessed trace]; rewrite Htrace;
      unfold backend_calls in *; rewrite ?filter_app; cbn [filter];
      rewrite Hevs, ?app_nil_r; reflexivity.
  - rewrite Htrace. unfold backend_calls in *. rewrite filter_app. cbn [filter].
    rewrite Hevs. reflexivity.
Qed.

(** Apart from [capture], an operation whose guards passed, whose gateway
    is resolved and whose prior token is found creates exactly one
    Transaction, whatever the backend does. *)
Lemma run_creates_one (E : Collaborators) (c : Call) (w : World)
    (g : Gateway) (tok : option string) :
  (forall amount store_source, c <> CallCapture amount store_source) ->
  is_active (payment w) = true ->
  guards_pass E c (payment w) = true ->
  Gateway_lookup E (gateway (payment w)) = Ok g ->
  prior_token_is c w tok ->
  exists txn, transactions (snd (run E c w)) = transactions w ++ [txn].
Proof.
  intros Hc Hact Hguard Hgw Htok.
  destruct (undecorated_dispatches E c w g tok Hguard Hgw Htok)
    as [evs [_ [_ Hres]]].
  assert (Hok : exists txn, fst (undecorated E c w) = Ok txn).
  { destruct c; try exact Hres. exfalso. exact (Hc _ _ eq_refl). }
  destruct Hok as [txn Hok].
  pose proof (undecorated_appends E c w) as [_ Happ].
  rewrite Hok in Happ.
  rewrite run_unfold, Hact.
  destruct (undecorated E c w) as [r w1]. cbn in Hok, Happ. subst r.
  exists txn. destruct (txn_is_success txn); cbn; exact Happ.
Qed.

(** [_get_gateway] raises what [Gateway(...)] raised, except that an
    [AttributeError] becomes an [UnboundLocalError]: it never raises an
    [ImproperlyConfigured] of its own. *)
Lemma _get_gateway_raises (E : Collaborators) (w : World) (e : Exn) :
  fst (_get_gateway E w) = Raise e ->
  (Gateway_lookup E (gateway (payment w)) = Raise e /\ is_AttributeError e = false) \/
  (e = UnboundLocalError "gateway" /\
   exists e', Gateway_lookup E (gateway (payment w)) = Raise e' /\
              is_AttributeError e' = true).
Proof.
  unfold _get_gateway, try_except, bind, get_payment, emit, lift, raise. cbn.
  destruct (Gateway_lookup E (gateway (payment w))) as [g|e'] eqn:Hl; cbn;
    [discriminate|].
  destruct (is_AttributeError e') eqn:Ha; cbn; intro H; inversion H; subst.
  - right. split; [reflexivity|]. exists e'. auto.
  - left. auto.
Qed.

(** C6, the claim as stated fails: after two successful authorizations the
    most recent successful AUTH transaction carries the token "t2", but
    [capture] hands the backend the token "t1" of the first one. *)
Lemma capture_token_is_not_most_recent :
  transactions two_authorizations = [auth_txn "t1"; auth_txn "t2"] /\
  most_recent_successful AUTH (transactions two_authorizations)
    = Some (auth_txn "t2") /\
  map (fun e => match e with
                | EvBackend method _ data => (method, pd_token data)
                | _ => (list_payment_gateways_method, None)
                end)
      (backend_calls (trace (snd (capture E_accepting None false two_authorizations))))
    = [(authorize_payment_method, Some "t1");
       (authorize_payment_method, Some "t2");
       (capture_payment_method, Some "t1")] /\
  Some "t1" <> txn_token (auth_txn "t2").
Proof.
  split; [reflexivity|]. split; [reflexivity|]. split; [reflexivity|].
  discriminate.
Qed.

(** C6, amended.  For [capture], [void] and [confirm] (prior kind AUTH) and
    for [refund] (prior kind CAPTURE) on an active payment whose earlier
    guards pass and whose gateway is resolved: if the payment has no
    successful transaction of the prior kind the operation raises a
    [PaymentError] before any backend invocation and creates no
    Transaction; if it has, the first such transaction in the order of
    [payment.transactions] supplies the token handed to the backend. *)
Theorem prior_transaction_lookup (E : Collaborators) (c : Call)
    (k : TransactionKind) (w : World) (g : Gateway) :
  prior_kind c = Some k ->
  is_active (payment w) = true ->
  guards_pass E c (payment w) = true ->
  Gateway_lookup E (gateway (payment w)) = Ok g ->
  (successful_of_kind k (transactions w) = [] ->
   (exists msg, fst (run E c w) = Raise (PaymentError msg)) /\
   backend_calls (trace (snd (run E c w))) = backend_calls (trace w) /\
   transactions (snd (run E c w)) = transactions w) /\
  (forall txn rest,
     successful_of_kind k (transactions w) = txn :: rest ->
     backend_calls (trace (snd (run E c w))) =
       backend_calls (trace w) ++
         [EvBackend (method_of c) g
            (payment_data_of E c (payment w) (txn_token txn))] /\
     pd_token (payment_data_of E c (payment w) (txn_token txn)) = txn_token txn).
Proof.
  intros Hk Hact Hguard Hgw. split.
  - intro Hnone.
    rewrite run_unfold, Hact,
      (undecorated_no_prior E c k w g Hk Hguard Hgw Hnone).
    cbn. split; [eexists; reflexivity|]. split; [|reflexivity].
    rewrite backend_calls_app. cbn. apply app_nil_r.
  - intros txn rest Hfound. split.
    + apply run_dispatches; try assumption.
      unfold prior_token_is. rewrite Hk. exists txn, rest. auto.
    + destruct c; cbn in Hk; try discriminate; reflexivity.
Qed.

Lemma prior_transaction_lookup_witness :
  (exists msg,
     fst (run E_accepting (CallCapture None false) (fresh active_payment []))
     = Raise (PaymentError msg)) /\
  transactions (snd (run E_accepting (CallCapture None false) (fresh active_payment [])))
  = [].
Proof.
  destruct (prior_transaction_lookup E_accepting (CallCapture None false) AUTH
              (fresh active_payment []) (GatewayMember "dummy")
              eq_refl eq_refl eq_refl eq_refl) as [H _].
  destruct (H eq_refl) as [H1 [_ H2]].
  split; assumption.
Defined.

(** C7, the claim as stated fails: [create_payment_form] carries the
    active-payment check and raises the inactive-payment error on an
    inactive payment. *)
Lemma create_payment_form_requires_active_payment :
  is_active inactive_payment = false /\
  create_payment_form E_accepting "data" (fresh inactive_payment []) =
  (Raise (PaymentError "This payment is no longer active."),
   fresh inactive_payment []).
Proof. split; reflexivity. Qed.

(** C7, amended.  The active-payment check is applied to every mutating
    operation and to [create_payment_form]; [list_gateways],
    [list_payment_sources] and [get_client_token] carry no such check: they
    return what the plugin manager returns whatever [payment.is_active]
    is. *)
Theorem active_payment_check_coverage (E : Collaborators) (w : World) :
  (forall c,
     is_active (payment w) = false ->
     fst (run E c w) = Raise (PaymentError "This payment is no longer active.")) /\
  (forall data,
     is_active (payment w) = false ->
     fst (create_payment_form E data w) =
       Raise (PaymentError "This payment is no longer active.")) /\
  fst (list_gateways E w) = pm_list_payment_gateways E /\
  (forall g customer_id,
     fst (list_payment_sources E g customer_id w) =
       pm_list_payment_sources E g customer_id) /\
  (forall g,
     Gateway_lookup E (gateway (payment w)) = Ok g ->
     fst (get_client_token E w) =
       pm_get_client_token E g (mkPaymentData (payment w) None None false)).
Proof.
  split; [|split; [|split; [|split]]].
  - intros c H. rewrite run_unfold, H. reflexivity.
  - intros data H. unfold create_payment_form, require_active_payment, bind,
      get_payment, raise. cbn. rewrite H. reflexivity.
  - reflexivity.
  - reflexivity.
  - intros g Hgw. unfold get_client_token. eval_guards.
    rewrite (_get_gateway_resolved E w g Hgw). reflexivity.
Qed.

Lemma active_payment_check_coverage_witness :
  fst (run E_accepting CallVoid (fresh inactive_payment [auth_txn "a-1"]))
    = Raise (PaymentError "This payment is no longer active.") /\
  fst (get_client_token E_accepting (fresh inactive_payment [auth_txn "a-1"]))
    = Ok "client-token".
Proof.
  destruct (active_payment_check_coverage E_accepting
              (fresh inactive_payment [auth_txn "a-1"]))
    as [H1 [_ [_ [_ H5]]]].
  split.
  - apply H1. reflexivity.
  - rewrite (H5 (GatewayMember "dummy")); reflexivity.
Defined.

(** C1: [capture] on an active payment that passes every guard, with a
    backend that raises or returns a malformed response, calls the backend,
    raises [AttributeError] at [response.card_info] and creates no
    Transaction. *)
Theorem capture_gateway_fault_creates_no_transaction :
  let w := fresh active_payment [auth_txn "auth-1"] in
  guards_pass E_raising (CallCapture None false) (payment w) = true /\
  (forall E, In E [E_raising; E_malformed] ->
     fst (capture E None false w) =
       Raise (AttributeError "'NoneType' object has no attribute 'card_info'") /\
     transactions (snd (capture E None false w)) = transactions w /\
     length (backend_calls (trace (snd (capture E None false w)))) = 1%nat).
Proof.
  cbv zeta. split; [reflexivity|].
  intros E [<-|[<-|[]]]; repeat split; reflexivity.
Qed.

(** C8: on an active payment whose gateway identifier is unrecognized or
    unset, [process_payment] raises [UnboundLocalError] when [Gateway(...)]
    raises the [AttributeError] the handler is written for, and the
    exception of [Gateway(...)] itself otherwise; it does not raise
    [ImproperlyConfigured].  No Transaction is created. *)
Theorem unknown_gateway_is_not_improperly_configured :
  process_payment E_attribute_error "tok" false (fresh paypal_payment []) =
    (Raise (UnboundLocalError "gateway"),
     mkWorld paypal_payment [] [EvGateway (Some "paypal")]) /\
  process_payment E_attribute_error "tok" false (fresh unset_gateway_payment []) =
    (Raise (UnboundLocalError "gateway"),
     mkWorld unset_gateway_payment [] [EvGateway None]) /\
  process_payment E_accepting "tok" false (fresh paypal_payment []) =
    (Raise (ValueError "'paypal' is not a valid Gateway"),
     mkWorld paypal_payment [] [EvGateway (Some "paypal")]).
Proof. repeat split; reflexivity. Qed.

(** * Further properties of gateway.py *)

(** ** [_fetch_gateway_response] *)

Lemma log_entries_app (t1 t2 : list Event) :
  log_entries (t1 ++ t2) = log_entries t1 ++ log_entries t2.
Proof.
  induction t1 as [|e t1 IH]; [reflexivity|].
  destruct e; cbn; rewrite ?IH; reflexivity.
Qed.

Lemma card_updates_app (t1 t2 : list Event) :
  card_updates (t1 ++ t2) = card_updates t1 ++ card_updates t2.
Proof.
  induction t1 as [|e t1 IH]; [reflexivity|].
  destruct e; cbn; rewrite ?IH; reflexivity.
Qed.

Lemma plugin_queries_app (t1 t2 : list Event) :
  plugin_queries (t1 ++ t2) = plugin_queries t1 ++ plugin_queries t2.
Proof. apply filter_app. Qed.

(** X1.  [_fetch_gateway_response] never raises, whatever the wrapped
    function does.  It returns either the validated response with no error
    and logs nothing, or no response with the fixed message "Oops!
    Something went wrong." and exactly one log entry; the exception that
    caused the failure is not part of the result. *)
Theorem fetch_gateway_response_absorbs_failures (E : Collaborators)
    (fn : Gateway -> PaymentData -> M GatewayResponse)
    (g : Gateway) (data : PaymentData) (w : World) :
  let out := _fetch_gateway_response E fn g data w in
  (exists r,
     fst out = Ok (Some r, None) /\
     fst (fn g data w) = Ok r /\
     validate_gateway_response E r = Ok tt /\
     snd out = snd (fn g data w)) \/
  (fst out = Ok (None, Some "Oops! Something went wrong.") /\
   (forall r, fst (fn g data w) = Ok r ->
              validate_gateway_response E r <> Ok tt) /\
   exists msg,
     log_entries (trace (snd out)) =
       log_entries (trace (snd (fn g data w))) ++ [msg]).
Proof.
  cbv zeta.
  unfold _fetch_gateway_response, logger_exception, try_except, bind, emit,
    lift, ret.
  destruct (fn g data w) as [[r|e] w1]; cbn.
  - destruct (validate_gateway_response E r) as [[]|e] eqn:Hv; cbn.
    + left. exists r. auto.
    + right. split; [destruct (is_GatewayError e); reflexivity|].
      split; [intros r' Hr'; inversion Hr'; subst; congruence|].
      destruct (is_GatewayError e); cbn; eexists;
        rewrite log_entries_app; reflexivity.
  - right. split; [destruct (is_GatewayError e); reflexivity|].
    split; [intros r' Hr'; discriminate|].
    destruct (is_GatewayError e); cbn; eexists;
      rewrite log_entries_app; reflexivity.
Qed.

(** ** The guards *)

Ltac refund_to_guards Hact amount w :=
  unfold refund; rewrite decorated_unfold, Hact;
  unfold refund_undecorated; unfold bind at 1, get_payment at 1;
  fold (refund_amount amount (payment w));
  unfold bind at 1; rewrite _validate_refund_amound_eval.

(** X2.  On an active payment [refund] reports the first guard that fails,
    in this order: a non-positive amount, an amount above
    [payment.captured_amount], a payment that cannot be refunded.  Each
    rejection leaves the store untouched. *)
Theorem refund_rejection_messages (E : Collaborators)
    (amount : option Decimal) (w : World) :
  is_active (payment w) = true ->
  let a := refund_amount amount (payment w) in
  (decimal_le a (Number 0) ->
   refund E amount w =
     (Raise (PaymentError "Amount should be a positive number."), w)) /\
  (decimal_lt (Number 0) a -> decimal_lt (captured_amount (payment w)) a ->
   refund E amount w =
     (Raise (PaymentError "Cannot refund more than captured"), w)) /\
  (decimal_lt (Number 0) a -> decimal_le a (captured_amount (payment w)) ->
   can_refund E (payment w) = false ->
   refund E amount w =
     (Raise (PaymentError "This payment cannot be refunded."), w)).
Proof.
  intros Hact. cbv zeta.
  split; [|split].
  - intro Hle. apply decimal_leb_true in Hle.
    refund_to_guards Hact amount w. rewrite Hle. reflexivity.
  - intros Hpos Hgt. apply decimal_leb_false in Hpos, Hgt.
    refund_to_guards Hact amount w. rewrite Hpos, Hgt. reflexivity.
  - intros Hpos Hle Hcan.
    apply decimal_leb_false in Hpos. apply decimal_leb_true in Hle.
    refund_to_guards Hact amount w. rewrite Hpos, Hle.
    unfold bind at 1. rewrite Hcan. reflexivity.
Qed.

Lemma refund_rejection_messages_witness :
  refund E_accepting (Some (Number 0)) (fresh captured_payment [capture_txn "c-1"]) =
    (Raise (PaymentError "Amount should be a positive number."),
     fresh captured_payment [capture_txn "c-1"]) /\
  refund E_accepting (Some (Number 150)) (fresh captured_payment [capture_txn "c-1"]) =
    (Raise (PaymentError "Cannot refund more than captured"),
     fresh captured_payment [capture_txn "c-1"]) /\
  refund E_not_refundable (Some (Number 40)) (fresh captured_payment [capture_txn "c-1"]) =
    (Raise (PaymentError "This payment cannot be refunded."),
     fresh captured_payment [capture_txn "c-1"]).
Proof.
  split; [|split].
  - apply (refund_rejection_messages E_accepting (Some (Number 0))
             (fresh captured_payment [capture_txn "c-1"]) eq_refl).
    cbn. unfold Qle. cbn. lia.
  - apply (refund_rejection_messages E_accepting (Some (Number 150))
             (fresh captured_payment [capture_txn "c-1"]) eq_refl);
      cbn; unfold Qlt; cbn; lia.
  - apply (refund_rejection_messages E_not_refundable (Some (Number 40))
             (fresh captured_payment [capture_txn "c-1"]) eq_refl);
      [cbn; unfold Qlt; cbn; lia|cbn; unfold Qle; cbn; lia|reflexivity].
Defined.

(** ** The prior transaction *)

Lemma kind_eqb_eq (a b : TransactionKind) : kind_eqb a b = true <-> a = b.
Proof. destruct a, b; cbn; split; intro H; congruence. Qed.

Lemma hd_error_filter {A : Type} (f : A -> bool) (l : list A) :
  match hd_error (filter f l) with
  | None => forall x, In x l -> f x = false
  | Some y =>
      exists before after,
        l = before ++ y :: after /\ f y = true /\
        forall x, In x before -> f x = false
  end.
Proof.
  induction l as [|a l IH]; cbn.
  - intros x [].
  - destruct (f a) eqn:Ha; cbn.
    + exists [], l. split; [reflexivity|]. split; [exact Ha|]. intros x [].
    + destruct (hd_error (filter f l)) as [y|].
      * destruct IH as [before [after [-> [Hy Hb]]]].
        exists (a :: before), after. split; [reflexivity|]. split; [exact Hy|].
        intros x [<-|Hx]; auto.
      * intros x [<-|Hx]; auto.
Qed.

(** X3.  [_get_past_transaction_token] reads the store without changing
    it.  It raises a [PaymentError] exactly when the payment has no
    transaction that is both of the requested kind and successful;
    otherwise it returns the token of the first such transaction, skipping
    every earlier transaction that is of another kind or unsuccessful. *)
Theorem past_transaction_token_lookup (kind : TransactionKind) (w : World) :
  snd (_get_past_transaction_token kind w) = w /\
  (((exists msg,
       fst (_get_past_transaction_token kind w) = Raise (PaymentError msg)) /\
    (forall t, In t (transactions w) ->
               ~ (txn_kind t = kind /\ txn_is_success t = true))) \/
   (exists before t after,
      transactions w = before ++ t :: after /\
      txn_kind t = kind /\ txn_is_success t = true /\
      (forall t', In t' before ->
                  ~ (txn_kind t' = kind /\ txn_is_success t' = true)) /\
      fst (_get_past_transaction_token kind w) = Ok (txn_token t))).
Proof.
  rewrite _get_past_transaction_token_eval.
  unfold successful_of_kind.
  pose proof (hd_error_filter
                (fun t => kind_eqb (txn_kind t) kind && txn_is_success t)
                (transactions w)) as H.
  assert (Hno : forall t,
             kind_eqb (txn_kind t) kind && txn_is_success t = false ->
             ~ (txn_kind t = kind /\ txn_is_success t = true)).
  { intros t Hf [Hk Hs]. apply kind_eqb_eq in Hk. rewrite Hk, Hs in Hf.
    discriminate. }
  destruct (filter _ (transactions w)) as [|t rest]; cbn in *.
  - split; [reflexivity|]. left. split; [eexists; reflexivity|].
    intros t Ht. apply Hno. auto.
  - split; [reflexivity|]. right.
    destruct H as [before [after [Heq [Ht Hb]]]].
    apply andb_prop in Ht. destruct Ht as [Hk Hs]. apply kind_eqb_eq in Hk.
    exists before, t, after.
    split; [exact Heq|]. split; [exact Hk|]. split; [exact Hs|].
    split; [|reflexivity].
    intros t' Ht'. apply Hno. auto.
Qed.

(** ** Failures before the backend is reached *)

(** X4.  An exception raised by [clean_authorize] (in [authorize]) or by
    [clean_capture] (in [capture]) on an active payment reaches the caller
    unchanged, whatever its class, and the store is untouched: the gateway
    is not resolved, the backend is not called, nothing is recorded. *)
Theorem clean_exception_propagates (E : Collaborators) (c : Call) (w : World)
    (e : Exn) :
  is_active (payment w) = true ->
  clean_result E c (payment w) = Raise e ->
  run E c w = (Raise e, w).
Proof.
  intros Hact Hclean. rewrite run_unfold, Hact.
  destruct c; cbn in Hclean; try discriminate; cbn [undecorated].
  - unfold authorize_undecorated. eval_guards. rewrite Hclean. reflexivity.
  - unfold capture_undecorated. eval_guards.
    fold (capture_amount E amount (payment w)). rewrite Hclean. reflexivity.
Qed.

Lemma clean_exception_propagates_witness :
  is_active (payment (fresh active_payment [auth_txn "a-1"])) = true /\
  run E_accepting (CallCapture (Some (Number 0)) false) (fresh active_payment [auth_txn "a-1"])
  = (Raise (PaymentError "Amount should be a positive number."),
     fresh active_payment [auth_txn "a-1"]).
Proof.
  split; [reflexivity|].
  apply (clean_exception_propagates E_accepting (CallCapture (Some (Number 0)) false)
           (fresh active_payment [auth_txn "a-1"])); reflexivity.
Defined.

Lemma _get_gateway_world (E : Collaborators) (w : World) :
  snd (_get_gateway E w) =
  mkWorld (payment w) (transactions w)
    (trace w ++ [EvGateway (gateway (payment w))]).
Proof.
  unfold _get_gateway, try_except, bind, get_payment, emit, lift, raise. cbn.
  destruct (Gateway_lookup E (gateway (payment w))) as [g|e]; cbn;
    [reflexivity|].
  destruct (is_AttributeError e); reflexivity.
Qed.

(** An operation whose guards fail stops with the store untouched. *)
Lemma undecorated_guard_fails (E : Collaborators) (c : Call) (w : World) :
  guards_pass E c (payment w) = false ->
  exists e, undecorated E c w = (Raise e, w).
Proof.
  intro Hg. destruct c; cbn in Hg; try discriminate; cbn [undecorated].
  - unfold authorize_undecorated. eval_guards.
    destruct (clean_authorize E (payment w)) as [u|e]; [discriminate|].
    exists e. reflexivity.
  - unfold capture_undecorated. eval_guards.
    fold (capture_amount E amount (payment w)).
    destruct (clean_capture E (payment w) (capture_amount E amount (payment w)))
      as [u|e]; [discriminate|].
    exists e. reflexivity.
  - unfold refund_undecorated. eval_guards.
    fold (refund_amount amount (payment w)).
    rewrite _validate_refund_amound_eval.
    destruct (decimal_leb (refund_amount amount (payment w)) (Number 0))
      as [[|]|]; [eexists; reflexivity| |eexists; reflexivity].
    destruct (decimal_leb (refund_amount amount (payment w))
                (captured_amount (payment w)))
      as [[|]|]; [|eexists; reflexivity|eexists; reflexivity].
    rewrite Hg. cbn. eexists. reflexivity.
Qed.

(** An operation whose guards pass stops at a gateway that does not
    resolve. *)
Lemma undecorated_gateway_fails (E : Collaborators) (c : Call) (w : World)
    (e : Exn) :
  guards_pass E c (payment w) = true ->
  fst (_get_gateway E w) = Raise e ->
  undecorated E c w = (Raise e, snd (_get_gateway E w)).
Proof.
  intros Hg Hgw.
  destruct c; cbn in Hg; cbn [undecorated].
  - unfold process_payment_undecorated. eval_guards.
    destruct (_get_gateway E w) as [r w1]. cbn in Hgw. subst r. reflexivity.
  - unfold authorize_undecorated. eval_guards.
    destruct (clean_authorize E (payment w)); [|discriminate].
    destruct (_get_gateway E w) as [r w1]. cbn in Hgw. subst r. reflexivity.
  - unfold capture_undecorated. eval_guards.
    fold (capture_amount E amount (payment w)).
    destruct (clean_capture E (payment w) (capture_amount E amount (payment w)));
      [|discriminate].
    destruct (_get_gateway E w) as [r w1]. cbn in Hgw. subst r. reflexivity.
  - unfold refund_undecorated. eval_guards.
    fold (refund_amount amount (payment w)).
    destruct (refund_guards_pass_inv E amount (payment w) Hg)
      as [H1 [H2 H3]].
    rewrite _validate_refund_amound_eval, H1, H2, H3. cbn.
    destruct (_get_gateway E w) as [r w1]. cbn in Hgw. subst r. reflexivity.
  - unfold void_undecorated. eval_guards.
    destruct (_get_gateway E w) as [r w1]. cbn in Hgw. subst r. reflexivity.
  - unfold confirm_undecorated. eval_guards.
    destruct (_get_gateway E w) as [r w1]. cbn in Hgw. subst r. reflexivity.
Qed.

(** X5.  When the guards of an operation pass on an active payment and
    [_get_gateway] raises, the operation raises that same exception; the
    prior transactions are not looked at, the backend is not called and no
    Transaction is created. *)
Theorem gateway_exception_propagates (E : Collaborators) (c : Call)
    (w : World) (e : Exn) :
  is_active (payment w) = true ->
  guards_pass E c (payment w) = true ->
  fst (_get_gateway E w) = Raise e ->
  fst (run E c w) = Raise e /\
  payment (snd (run E c w)) = payment w /\
  transactions (snd (run E c w)) = transactions w /\
  backend_calls (trace (snd (run E c w))) = backend_calls (trace w).
Proof.
  intros Hact Hg Hgw.
  rewrite run_unfold, Hact, (undecorated_gateway_fails E c w e Hg Hgw).
  cbn [fst snd]. rewrite _get_gateway_world. cbn.
  repeat split. rewrite backend_calls_app. cbn. apply app_nil_r.
Qed.

Lemma gateway_exception_propagates_witness :
  is_active (payment (fresh paypal_payment [])) = true /\
  fst (run E_accepting CallVoid (fresh paypal_payment [])) =
    Raise (ValueError "'paypal' is not a valid Gateway") /\
  transactions (snd (run E_accepting CallVoid (fresh paypal_payment []))) = [].
Proof.
  split; [reflexivity|].
  destruct (gateway_exception_propagates E_accepting CallVoid
              (fresh paypal_payment [])
              (ValueError "'paypal' is not a valid Gateway")
              eq_refl eq_refl eq_refl) as [H1 [_ [H2 _]]].
  split; assumption.
Defined.

Lemma _get_gateway_outcome (E : Collaborators) (w : World) :
  (exists g, Gateway_lookup E (gateway (payment w)) = Ok g) \/
  (exists e, fst (_get_gateway E w) = Raise e).
Proof.
  unfold _get_gateway, try_except, bind, get_payment, emit, lift, raise. cbn.
  destruct (Gateway_lookup E (gateway (payment w))) as [g|e]; cbn.
  - left. exists g. reflexivity.
  - right. destruct (is_AttributeError e); cbn; eexists; reflexivity.
Qed.

(** X6.  Every operation calls the gateway backend at most once, and only
    through the plugin-manager method of that operation. *)
Theorem at_most_one_backend_call (E : Collaborators) (c : Call) (w : World) :
  backend_calls (trace (snd (run E c w))) = backend_calls (trace w) \/
  exists g data,
    backend_calls (trace (snd (run E c w))) =
      backend_calls (trace w) ++ [EvBackend (method_of c) g data].
Proof.
  destruct (is_active (payment w)) eqn:Hact.
  2: { left. rewrite run_unfold, Hact. reflexivity. }
  destruct (guards_pass E c (payment w)) eqn:Hg.
  2: { left. destruct (undecorated_guard_fails E c w Hg) as [e He].
       rewrite run_unfold, Hact, He. reflexivity. }
  destruct (_get_gateway_outcome E w) as [[g Hgw]|[e Hgw]].
  2: { left. rewrite run_unfold, Hact, (undecorated_gateway_fails E c w e Hg Hgw).
       cbn [snd]. rewrite _get_gateway_world. cbn.
       rewrite backend_calls_app. cbn. apply app_nil_r. }
  destruct (prior_kind c) as [k|] eqn:Hk.
  - destruct (successful_of_kind k (transactions w)) as [|txn rest] eqn:Hs.
    + left. rewrite run_unfold, Hact,
        (undecorated_no_prior E c k w g Hk Hg Hgw Hs).
      cbn. rewrite backend_calls_app. cbn. apply app_nil_r.
    + right. exists g, (payment_data_of E c (payment w) (txn_token txn)).
      apply run_dispatches; try assumption.
      unfold prior_token_is. rewrite Hk. eauto.
  - right. exists g, (payment_data_of E c (payment w) None).
    apply run_dispatches; try assumption.
    unfold prior_token_is. rewrite Hk. exact I.
Qed.

(** ** The read operations *)



(** X8.  When [_get_gateway] raises, [get_client_token] and, on an active
    payment, [create_payment_form] raise that same exception and the plugin
    manager is not asked anything. *)
Theorem read_operations_need_a_gateway (E : Collaborators) (w : World)
    (data : string) (e : Exn) :
  fst (_get_gateway E w) = Raise e ->
  (fst (get_client_token E w) = Raise e /\
   plugin_queries (trace (snd (get_client_token E w))) = plugin_queries (trace w)) /\
  (is_active (payment w) = true ->
   fst (create_payment_form E data w) = Raise e /\
   plugin_queries (trace (snd (create_payment_form E data w))) =
     plugin_queries (trace w)).
Proof.
  intro Hgw. pose proof (_get_gateway_world E w) as Hw. split.
  - unfold get_client_token. eval_guards.
    destruct (_get_gateway E w) as [r w1]. cbn in Hgw, Hw. subst r w1. cbn.
    split; [reflexivity|]. rewrite plugin_queries_app. cbn. apply app_nil_r.
  - intro Hact. unfold create_payment_form, require_active_payment.
    eval_guards. rewrite Hact. cbn.
    destruct (_get_gateway E w) as [r w1]. cbn in Hgw, Hw. subst r w1. cbn.
    split; [reflexivity|]. rewrite plugin_queries_app. cbn. apply app_nil_r.
Qed.

Lemma read_operations_need_a_gateway_witness :
  fst (_get_gateway E_accepting (fresh paypal_payment [])) =
    Raise (ValueError "'paypal' is not a valid Gateway") /\
  fst (get_client_token E_accepting (fresh paypal_payment [])) =
    Raise (ValueError "'paypal' is not a valid Gateway") /\
  fst (create_payment_form E_accepting "data" (fresh paypal_payment [])) =
    Raise (ValueError "'paypal' is not a valid Gateway").
Proof.
  split; [reflexivity|].
  destruct (read_operations_need_a_gateway E_accepting (fresh paypal_payment [])
              "data" (ValueError "'paypal' is not a valid Gateway") eq_refl)
    as [[H1 _] H2].
  split; [exact H1|]. apply H2. reflexivity.
Defined.

(** ** The decorators *)

(** X9.  [raise_payment_error] never raises a [PaymentError] with an empty
    message: when the unsuccessful transaction records the empty string as
    its error, the message is the generic "Transaction was unsuccessful",
    as when it records none. *)
Theorem raise_payment_error_message_not_empty (fn : M Transaction) (w w1 : World)
    (txn : Transaction) :
  fn w = (Ok txn, w1) ->
  txn_is_success txn = false ->
  exists msg,
    raise_payment_error fn w = (Raise (PaymentError msg), w1) /\
    msg <> EmptyString /\
    (txn_error txn = Some EmptyString -> msg = "Transaction was unsuccessful").
Proof.
  intros Hfn Hs. unfold raise_payment_error, bind. rewrite Hfn, Hs. cbn.
  eexists. split; [reflexivity|].
  destruct (txn_error txn) as [[|a s]|]; cbn;
    (split; [discriminate|]); try reflexivity; discriminate.
Qed.

Lemma raise_payment_error_message_not_empty_witness :
  raise_payment_error (ret blank_error_txn) (fresh active_payment []) =
  (Raise (PaymentError "Transaction was unsuccessful"), fresh active_payment []).
Proof.
  destruct (raise_payment_error_message_not_empty (ret blank_error_txn)
              (fresh active_payment []) (fresh active_payment [])
              blank_error_txn eq_refl eq_refl) as [msg [Hr [_ Hm]]].
  rewrite Hr, (Hm eq_refl). reflexivity.
Defined.

(** X10.  Every operation leaves the existing transactions in place and
    adds at most one; the post-processing hook runs exactly when the
    operation returns, once, on the transaction returned, and that
    transaction is successful and is the one added. *)
Theorem one_transaction_one_hook (E : Collaborators) (c : Call) (w : World) :
  (exists added,
     transactions (snd (run E c w)) = transactions w ++ added /\
     (length added <= 1)%nat) /\
  postprocess_calls (trace (snd (run E c w))) =
    postprocess_calls (trace w) ++
      match fst (run E c w) with
      | Ok txn => [txn]
      | Raise _ => []
      end /\
  (forall txn,
     fst (run E c w) = Ok txn ->
     txn_is_success txn = true /\
     transactions (snd (run E c w)) = transactions w ++ [txn]).
Proof.
  pose proof (run_outcome E c w) as H.
  destruct (fst (run E c w)) as [txn|e].
  - destruct H as [H1 [H2 H3]]. split; [|split].
    + exists [txn]. split; [exact H1|]. cbn. lia.
    + exact H3.
    + intros txn' Heq. inversion Heq. subst txn'. auto.
  - destruct H as [H1 H2]. split; [|split].
    + destruct H2 as [H2|[txn [H2 _]]].
      * exists []. rewrite app_nil_r. split; [exact H2|]. cbn. lia.
      * exists [txn]. split; [exact H2|]. cbn. lia.
    + rewrite app_nil_r. exact H1.
    + intros txn Heq. discriminate.
Qed.

Lemma one_transaction_one_hook_witness :
  fst (run E_accepting (CallAuthorize "tok" false) (fresh active_payment [])) =
    Ok (auth_txn "tok") /\
  txn_is_success (auth_txn "tok") = true /\
  transactions (snd (run E_accepting (CallAuthorize "tok" false)
                       (fresh active_payment []))) = [auth_txn "tok"].
Proof.
  split; [reflexivity|].
  destruct (one_transaction_one_hook E_accepting (CallAuthorize "tok" false)
              (fresh active_payment [])) as [_ [_ H]].
  exact (H (auth_txn "tok") eq_refl).
Defined.

(** ** What reaches the backend *)

(** X11.  [capture] calls [update_card_details] exactly when the gateway
    call succeeded and the validated response carries card information,
    once and with that response; after a failed gateway call it does not
    call it. *)
Theorem capture_updates_card_details (E : Collaborators)
    (amount : option Decimal) (store_source : bool) (w : World) (g : Gateway)
    (txn : Transaction) (rest : list Transaction) :
  is_active (payment w) = true ->
  clean_capture E (payment w) (capture_amount E amount (payment w)) = Ok tt ->
  Gateway_lookup E (gateway (payment w)) = Ok g ->
  successful_of_kind AUTH (transactions w) = txn :: rest ->
  let data :=
    mkPaymentData (payment w) (txn_token txn)
      (Some (capture_amount E amount (payment w))) store_source in
  (forall r,
     pm_capture_payment E g data = Ok r ->
     validate_gateway_response E r = Ok tt ->
     card_updates (trace (snd (capture E amount store_source w))) =
       card_updates (trace w) ++
         match gr_card_info r with
         | Some _ => [r]
         | None => []
         end) /\
  (gateway_call_fails E (pm_capture_payment E) g data = true ->
   card_updates (trace (snd (capture E amount store_source w))) =
     card_updates (trace w)).
Proof.
  intros Hact Hclean Hgw Hfound. cbv zeta.
  split.
  - intros r Hr Hv.
    unfold capture. rewrite decorated_unfold, Hact.
    unfold capture_undecorated. eval_guards.
    fold (capture_amount E amount (payment w)).
    rewrite Hclean, (_get_gateway_resolved E w g Hgw),
      _get_past_transaction_token_eval.
    cbn [transactions payment]. rewrite Hfound.
    rewrite (_fetch_gateway_response_validated E _ _ g _ _ r Hr Hv).
    unfold call_update_card_details, create_transaction, bind, get_payment,
      emit, set_payment, ret.
    destruct (gr_card_info r); cbn;
      destruct (gr_is_success r); cbn;
      rewrite ?card_updates_app; cbn; rewrite ?app_nil_r, <- ?app_assoc;
      reflexivity.
  - intro Hfail.
    unfold capture. rewrite decorated_unfold, Hact.
    unfold capture_undecorated. eval_guards.
    fold (capture_amount E amount (payment w)).
    rewrite Hclean, (_get_gateway_resolved E w g Hgw),
      _get_past_transaction_token_eval.
    cbn [transactions payment]. rewrite Hfound.
    match goal with
    | |- context [_fetch_gateway_response E (plugin_call ?m ?f) g ?d ?w0] =>
        destruct (_fetch_gateway_response_failed E m f g d w0 Hfail)
          as [msg Hfetch]
    end.
    rewrite Hfetch. cbn. rewrite !card_updates_app. cbn.
    rewrite !app_nil_r. reflexivity.
Qed.

Lemma capture_updates_card_details_witness :
  let w := fresh active_payment [auth_txn "a-1"] in
  is_active (payment w) = true /\
  card_updates (trace (snd (capture E_card None false w))) =
    [mkGatewayResponse true "cap-1" (Some "visa 4242") None].
Proof.
  cbv zeta. split; [reflexivity|].
  destruct (capture_updates_card_details E_card None false
              (fresh active_payment [auth_txn "a-1"]) (GatewayMember "dummy")
              (auth_txn "a-1") [] eq_refl eq_refl eq_refl eq_refl) as [H _].
  exact (H (mkGatewayResponse true "cap-1" (Some "visa 4242") None)
           eq_refl eq_refl).
Defined.

(** X12.  [process_payment] and [authorize] need no prior transaction: on
    an active payment whose gateway resolves (and, for [authorize], that
    [clean_authorize] accepts) they call their backend method once with the
    caller's token and store-source flag and no amount, whatever
    transactions the payment has. *)
Theorem process_and_authorize_dispatch (E : Collaborators) (token : string)
    (store_source : bool) (w : World) (g : Gateway) :
  is_active (payment w) = true ->
  Gateway_lookup E (gateway (payment w)) = Ok g ->
  let data := mkPaymentData (payment w) (Some token) None store_source in
  backend_calls (trace (snd (process_payment E token store_source w))) =
    backend_calls (trace w) ++ [EvBackend process_payment_method g data] /\
  (clean_authorize E (payment w) = Ok tt ->
   backend_calls (trace (snd (authorize E token store_source w))) =
     backend_calls (trace w) ++ [EvBackend authorize_payment_method g data]).
Proof.
  intros Hact Hgw. cbv zeta. split.
  - apply (run_dispatches E (CallProcess token store_source) w g None Hact);
      [reflexivity|exact Hgw|exact I].
  - intro Hclean.
    apply (run_dispatches E (CallAuthorize token store_source) w g None Hact);
      [cbn; rewrite Hclean; reflexivity|exact Hgw|exact I].
Qed.

Lemma process_and_authorize_dispatch_witness :
  let w := fresh active_payment [failed_auth_txn] in
  is_active (payment w) = true /\
  backend_calls (trace (snd (process_payment E_accepting "tok" true w))) =
    [EvBackend process_payment_method (GatewayMember "dummy")
       (mkPaymentData active_payment (Some "tok") None true)].
Proof.
  cbv zeta. split; [reflexivity|].
  destruct (process_and_authorize_dispatch E_accepting "tok" true
              (fresh active_payment [failed_auth_txn]) (GatewayMember "dummy")
              eq_refl eq_refl) as [H _].
  exact H.
Defined.

(** X13.  With the amount omitted, [capture] validates and sends
    [payment.get_charge_amount()], and [refund] validates and sends
    [payment.captured_amount]: the backend receives the defaulted amount
    together with the token of the prior transaction, and [refund] never
    asks to store the payment source. *)
Theorem omitted_amount_defaults (E : Collaborators) (store_source : bool)
    (w : World) (g : Gateway) (txn : Transaction) (rest : list Transaction) :
  is_active (payment w) = true ->
  Gateway_lookup E (gateway (payment w)) = Ok g ->
  (clean_capture E (payment w) (get_charge_amount E (payment w)) = Ok tt ->
   successful_of_kind AUTH (transactions w) = txn :: rest ->
   backend_calls (trace (snd (capture E None store_source w))) =
     backend_calls (trace w) ++
       [EvBackend capture_payment_method g
          (mkPaymentData (payment w) (txn_token txn)
             (Some (get_charge_amount E (payment w))) store_source)]) /\
  (decimal_lt (Number 0) (captured_amount (payment w)) ->
   can_refund E (payment w) = true ->
   successful_of_kind CAPTURE (transactions w) = txn :: rest ->
   backend_calls (trace (snd (refund E None w))) =
     backend_calls (trace w) ++
       [EvBackend refund_payment_method g
          (mkPaymentData (payment w) (txn_token txn)
             (Some (captured_amount (payment w))) false)]).
Proof.
  intros Hact Hgw. split.
  - intros Hclean Hfound.
    apply (run_dispatches E (CallCapture None store_source) w g (txn_token txn)
             Hact); [cbn; rewrite Hclean; reflexivity|exact Hgw|].
    unfold prior_token_is. cbn. eauto.
  - intros Hpos Hcan Hfound.
    apply (run_dispatches E (CallRefund None) w g (txn_token txn) Hact);
      [|exact Hgw|unfold prior_token_is; cbn; eauto].
    assert (H1 : decimal_leb (captured_amount (payment w))
                   (captured_amount (payment w)) = Some true).
    { apply decimal_leb_refl. intro Hnan. rewrite Hnan in Hpos. exact Hpos. }
    apply decimal_leb_false in Hpos.
    cbn. rewrite Hpos, H1, Hcan. reflexivity.
Qed.

Lemma omitted_amount_defaults_witness :
  let w := fresh captured_payment [capture_txn "c-1"] in
  is_active (payment w) = true /\
  decimal_lt (Number 0) (captured_amount (payment w)) /\
  backend_calls (trace (snd (refund E_accepting None w))) =
    [EvBackend refund_payment_method (GatewayMember "dummy")
       (mkPaymentData captured_payment (Some "c-1") (Some (Number 100)) false)].
Proof.
  cbv zeta.
  assert (Hpos : decimal_lt (Number 0)
                    (captured_amount
                       (payment (fresh captured_payment [capture_txn "c-1"])))).
  { cbn. unfold Qlt. cbn. lia. }
  split; [reflexivity|]. split; [exact Hpos|].
  destruct (omitted_amount_defaults E_accepting false
              (fresh captured_payment [capture_txn "c-1"])
              (GatewayMember "dummy") (capture_txn "c-1") []
              eq_refl eq_refl) as [_ H].
  exact (H Hpos eq_refl eq_refl).
Defined.

(** ** What is recorded *)

Lemma returns_kind_bind {A : Type} (k : TransactionKind) (m : M A)
    (f : A -> M Transaction) :
  (forall a, returns_kind k (f a)) -> returns_kind k (bind m f).
Proof.
  intros Hf w txn. unfold bind.
  destruct (m w) as [[a|e] w1]; [apply Hf|discriminate].
Qed.

Lemma returns_kind_raise (k : TransactionKind) (e : Exn) :
  returns_kind k (raise e).
Proof. intros w txn H. discriminate. Qed.

Lemma returns_kind_create_transaction (k : TransactionKind) data error response :
  returns_kind k (create_transaction k data error response).
Proof. intros w txn H. cbn in H. inversion H. reflexivity. Qed.

Ltac step_kind :=
  first
    [ apply returns_kind_create_transaction
    | apply returns_kind_raise
    | apply returns_kind_bind; intro
    | match goal with
      | |- returns_kind _ (match ?x with _ => _ end) => destruct x
      end ].

Lemma undecorated_returns_kind (E : Collaborators) (c : Call) :
  returns_kind (kind_of c) (undecorated E c).
Proof.
  destruct c; cbn [undecorated kind_of];
    unfold process_payment_undecorated, authorize_undecorated,
      capture_undecorated, refund_undecorated, void_undecorated,
      confirm_undecorated;
    repeat step_kind.
Qed.

(** X14.  A transaction an operation adds carries the kind of that
    operation: CAPTURE for [process_payment] and [capture], AUTH for
    [authorize], REFUND for [refund], VOID for [void], CONFIRM for
    [confirm]; this holds for recorded failures as for successes. *)
Theorem recorded_transaction_kind (E : Collaborators) (c : Call) (w : World)
    (txn : Transaction) :
  transactions (snd (run E c w)) = transactions w ++ [txn] ->
  txn_kind txn = kind_of c.
Proof.
  rewrite run_unfold.
  destruct (is_active (payment w)).
  2: { cbn. intro H. exfalso. exact (app_one_neq _ _ H). }
  pose proof (undecorated_appends E c w) as [_ Happ].
  pose proof (undecorated_returns_kind E c w) as Hkind.
  destruct (undecorated E c w) as [[txn'|e] w1]; cbn in *.
  - assert (Htx : transactions w1 = transactions w ++ [txn] -> txn_kind txn = kind_of c).
    { intro H. rewrite Happ in H. apply app_inj_tail in H.
      destruct H as [_ <-]. apply Hkind. reflexivity. }
    destruct (txn_is_success txn'); cbn; exact Htx.
  - intro H. rewrite Happ in H. exfalso. exact (app_one_neq _ _ H).
Qed.

Lemma recorded_transaction_kind_witness :
  let w := fresh active_payment [] in
  transactions (snd (run E_raising (CallProcess "tok" false) w)) =
    transactions w ++
      [mkTransaction 1 CAPTURE None false (Some "Oops! Something went wrong.") None] /\
  txn_kind
    (mkTransaction 1 CAPTURE None false (Some "Oops! Something went wrong.") None)
  = kind_of (CallProcess "tok" false).
Proof.
  cbv zeta. split; [reflexivity|].
  apply (recorded_transaction_kind E_raising (CallProcess "tok" false)
           (fresh active_payment [])).
  reflexivity.
Defined.

(** Past the guards, the gateway resolution and the token lookup, a failed
    gateway call makes every operation but [capture] record the failure. *)
Lemma undecorated_gateway_fault (E : Collaborators) (c : Call) (w : World)
    (g : Gateway) (tok : option string) :
  (forall amount store_source, c <> CallCapture amount store_source) ->
  guards_pass E c (payment w) = true ->
  Gateway_lookup E (gateway (payment w)) = Ok g ->
  prior_token_is c w tok ->
  gateway_call_fails E (backend_of E c) g
    (payment_data_of E c (payment w) tok) = true ->
  exists w1,
    undecorated E c w =
      (Ok (mkTransaction (payment_id (payment w)) (kind_of c) None false
             (Some ERROR_MSG) None), w1).
Proof.
  intros Hc Hguard Hgw Htok Hfail. unfold prior_token_is in Htok.
  destruct c;
    cbn [undecorated method_of payment_data_of prior_kind guards_pass
         backend_of kind_of] in *.
  - unfold process_payment_undecorated. eval_guards.
    rewrite (_get_gateway_resolved E w g Hgw). cbn [payment transactions trace].
    match goal with
    | |- context [_fetch_gateway_response E (plugin_call ?m ?f) g ?d ?w0] =>
        destruct (_fetch_gateway_response_failed E m f g d w0 Hfail)
          as [msg Hfetch]
    end.
    rewrite Hfetch. cbn. eexists. reflexivity.
  - unfold authorize_undecorated. eval_guards.
    destruct (clean_authorize E (payment w)); [|discriminate].
    rewrite (_get_gateway_resolved E w g Hgw). cbn [payment transactions trace].
    match goal with
    | |- context [_fetch_gateway_response E (plugin_call ?m ?f) g ?d ?w0] =>
        destruct (_fetch_gateway_response_failed E m f g d w0 Hfail)
          as [msg Hfetch]
    end.
    rewrite Hfetch. cbn. eexists. reflexivity.
  - exfalso. exact (Hc _ _ eq_refl).
  - destruct Htok as [txn [rest [Hfound ->]]].
    unfold refund_undecorated. eval_guards.
    fold (refund_amount amount (payment w)).
    destruct (refund_guards_pass_inv E amount (payment w) Hguard)
      as [H1 [H2 H3]].
    rewrite _validate_refund_amound_eval, H1, H2, H3. cbn.
    rewrite (_get_gateway_resolved E w g Hgw).
    rewrite _get_past_transaction_token_eval. cbn [transactions payment].
    rewrite Hfound.
    match goal with
    | |- context [_fetch_gateway_response E (plugin_call ?m ?f) g ?d ?w0] =>
        destruct (_fetch_gateway_response_failed E m f g d w0 Hfail)
          as [msg Hfetch]
    end.
    rewrite Hfetch. cbn. eexists. reflexivity.
  - destruct Htok as [txn [rest [Hfound ->]]].
    unfold void_undecorated. eval_guards.
    rewrite (_get_gateway_resolved E w g Hgw).
    rewrite _get_past_transaction_token_eval. cbn [transactions payment].
    rewrite Hfound.
    match goal with
    | |- context [_fetch_gateway_response E (plugin_call ?m ?f) g ?d ?w0] =>
        destruct (_fetch_gateway_response_failed E m f g d w0 Hfail)
          as [msg Hfetch]
    end.
    rewrite Hfetch. cbn. eexists. reflexivity.
  - destruct Htok as [txn [rest [Hfound ->]]].
    unfold confirm_undecorated. eval_guards.
    rewrite (_get_gateway_resolved E w g Hgw).
    rewrite _get_past_transaction_token_eval. cbn [transactions payment].
    rewrite Hfound.
    match goal with
    | |- context [_fetch_gateway_response E (plugin_call ?m ?f) g ?d ?w0] =>
        destruct (_fetch_gateway_response_failed E m f g d w0 Hfail)
          as [msg Hfetch]
    end.
    rewrite Hfetch. cbn. eexists. reflexivity.
Qed.

(** X15.  In every operation other than [capture], once the guards passed,
    the gateway is resolved and the prior token is found, a gateway call
    that raises or returns a response failing validation is recorded as one
    unsuccessful Transaction of the operation's kind with the error "Oops!
    Something went wrong.", and the operation raises a [PaymentError] with
    that message; the post-processing hook does not run. *)
Theorem gateway_fault_is_recorded_and_raised (E : Collaborators) (c : Call)
    (w : World) (g : Gateway) (tok : option string) :
  (forall amount store_source, c <> CallCapture amount store_source) ->
  is_active (payment w) = true ->
  guards_pass E c (payment w) = true ->
  Gateway_lookup E (gateway (payment w)) = Ok g ->
  prior_token_is c w tok ->
  gateway_call_fails E (backend_of E c) g
    (payment_data_of E c (payment w) tok) = true ->
  fst (run E c w) = Raise (PaymentError "Oops! Something went wrong.") /\
  transactions (snd (run E c w)) =
    transactions w ++
      [mkTransaction (payment_id (payment w)) (kind_of c) None false
         (Some "Oops! Something went wrong.") None] /\
  postprocess_calls (trace (snd (run E c w))) = postprocess_calls (trace w).
Proof.
  intros Hc Hact Hguard Hgw Htok Hfail.
  destruct (undecorated_gateway_fault E c w g tok Hc Hguard Hgw Htok Hfail)
    as [w1 Hrun].
  pose proof (undecorated_appends E c w) as [Hpost Happ].
  rewrite run_unfold, Hact, Hrun. rewrite Hrun in Hpost, Happ.
  cbn in *. auto.
Qed.

Lemma gateway_fault_is_recorded_and_raised_witness :
  let w := fresh captured_payment [capture_txn "c-1"] in
  is_active (payment w) = true /\
  fst (run E_malformed (CallRefund (Some (Number 40))) w) =
    Raise (PaymentError "Oops! Something went wrong.") /\
  transactions (snd (run E_malformed (CallRefund (Some (Number 40))) w)) =
    [capture_txn "c-1";
     mkTransaction 1 REFUND None false (Some "Oops! Something went wrong.") None].
Proof.
  cbv zeta. split; [reflexivity|].
  destruct (gateway_fault_is_recorded_and_raised E_malformed
              (CallRefund (Some (Number 40)))
              (fresh captured_payment [capture_txn "c-1"])
              (GatewayMember "dummy") (Some "c-1")) as [H1 [H2 _]].
  - intros amount store_source H. discriminate.
  - reflexivity.
  - reflexivity.
  - reflexivity.
  - unfold prior_token_is. cbn. exists (capture_txn "c-1"), []. auto.
  - reflexivity.
  - split; assumption.
Defined.
